(** * Adapter and metric-evaluation subsystem of the orchestrator

  A shallow embedding of the Python sources
  [orchestrator/adapters/__init__.py], [orchestrator/adapters/base.py],
  [orchestrator/adapters/python_adapter.py] and [orchestrator/init.py],
  followed by the properties established about them.

  Text.  A Python [str] is embedded as a [string], read as the UTF-8
  encoding of the text.  Substring tests, [startswith] and splitting at
  a line feed are exact on that reading.  [Py.chars] cuts a text into
  its characters; white space ([strip], [\s]) and decimal digits
  ([\d], [int]) are those of Unicode 14, as in CPython 3.11.
  [lower] folds the ASCII letters only.

  Integers.  A Python [int] is a [Z].  [Py.int] is the value of a run
  of digits; the interpreter's limit on the number of digits that
  [int(text)] converts is the parameter [max_str_digits] of
  [PythonAdapter.parse_test_output_with]. *)

From Stdlib Require Import ZArith QArith Lia Bool List Ascii String Floats.
From Stdlib Require Import DecimalString.
From stdpp Require Import base gmap strings list.

Set Warnings "-register-all".

Open Scope Z_scope.
Open Scope string_scope.

(** ** Python text primitives *)

Module Py.

Definition code (c : ascii) : N := N_of_ascii c.

Definition in_range (lo hi : N) (c : ascii) : bool :=
  ((lo <=? code c) && (code c <=? hi))%N.

Definition is_ascii (c : ascii) : bool := (code c <? 128)%N.

(** A byte that continues the UTF-8 encoding of a character. *)
Definition continuation (c : ascii) : bool := in_range 128 191 c.

Definition continues (ch : string) : bool :=
  match ch with
  | String c _ => continuation c
  | EmptyString => false
  end.

(** The characters of a text, each with the bytes of its encoding: a
    byte outside ASCII is joined to the continuation bytes that
    follow it. *)
Fixpoint chars (s : string) : list string :=
  match s with
  | EmptyString => []
  | String c s' =>
      match chars s' with
      | ch :: chs =>
          if negb (is_ascii c) && continues ch then String c ch :: chs
          else String c EmptyString :: ch :: chs
      | [] => [String c EmptyString]
      end
  end.

(** [''.join(chs)] *)
Definition join (chs : list string) : string :=
  fold_right String.append EmptyString chs.

(** [ord(ch)]: the code point that the bytes of [ch] encode; 1114112,
    which is no code point, when they encode none. *)
Definition ord (ch : string) : N :=
  match ch with
  | String c0 EmptyString => if is_ascii c0 then code c0 else 1114112
  | String c0 (String c1 EmptyString) =>
      if in_range 194 223 c0
      then (code c0 - 192) * 64 + (code c1 - 128)
      else 1114112
  | String c0 (String c1 (String c2 EmptyString)) =>
      if in_range 224 239 c0
      then (code c0 - 224) * 4096 + (code c1 - 128) * 64 + (code c2 - 128)
      else 1114112
  | String c0 (String c1 (String c2 (String c3 EmptyString))) =>
      if in_range 240 244 c0
      then (code c0 - 240) * 262144 + (code c1 - 128) * 4096
           + (code c2 - 128) * 64 + (code c3 - 128)
      else 1114112
  | _ => 1114112
  end%N.

Definition between (lo hi cp : N) : bool := ((lo <=? cp) && (cp <=? hi))%N.

(** [ch.isspace()], which is also the class [\s] and what [strip]
    removes: the characters of Unicode with the White_Space property
    that CPython knows. *)
Definition is_space (ch : string) : bool :=
  let cp := ord ch in
  between 9 13 cp || between 28 32 cp
  || N.eqb cp 133 || N.eqb cp 160 || N.eqb cp 5760
  || between 8192 8202 cp || N.eqb cp 8232 || N.eqb cp 8233
  || N.eqb cp 8239 || N.eqb cp 8287 || N.eqb cp 12288.

(** The code points of the digits zero of Unicode 14 (category Nd);
    the digits one to nine of each script follow its zero. *)
Definition decimal_zeros : list N := [
  48; 1632; 1776; 1984; 2406; 2534; 2662; 2790;
  2918; 3046; 3174; 3302; 3430; 3558; 3664; 3792;
  3872; 4160; 4240; 6112; 6160; 6470; 6608; 6784;
  6800; 6992; 7088; 7232; 7248; 42528; 43216; 43264;
  43472; 43504; 43600; 44016; 65296; 66720; 68912; 69734;
  69872; 69942; 70096; 70384; 70736; 70864; 71248; 71360;
  71472; 71904; 72016; 72784; 73040; 73120; 92768; 92864;
  93008; 120782; 120792; 120802; 120812; 120822; 123200; 123632;
  125264; 130032
]%N.

(** The value of a decimal digit, [None] for another character. *)
Definition digit (ch : string) : option Z :=
  let cp := ord ch in
  match List.find (fun zero => between zero (zero + 9) cp) decimal_zeros with
  | Some zero => Some (Z.of_N (cp - zero))
  | None => None
  end.

(** The class [\d] *)
Definition is_digit (ch : string) : bool :=
  match digit ch with
  | Some _ => true
  | None => false
  end.

Definition is_upper (c : ascii) : bool := in_range 65 90 c.

Definition is_newline (c : ascii) : bool := (code c =? 10)%N.

Definition lower_char (c : ascii) : ascii :=
  if is_upper c then ascii_of_N (code c + 32) else c.

(** [s.lower()] on the letters A to Z; the bytes of every other
    character are kept.  The names of the registry and the words the
    parsers look for are ASCII. *)
Fixpoint lower (s : string) : string :=
  match s with
  | EmptyString => EmptyString
  | String c s' => String (lower_char c) (lower s')
  end.

(** [sub in s] *)
Fixpoint contains (sub s : string) : bool :=
  String.prefix sub s ||
  match s with
  | EmptyString => false
  | String _ s' => contains sub s'
  end.

(** [s.startswith(p)] *)
Definition startswith (s p : string) : bool := String.prefix p s.

(** [s.count(sep)] for a one-character [sep] *)
Fixpoint count_char (sep : ascii) (s : string) : Z :=
  match s with
  | EmptyString => 0
  | String c s' => (if Ascii.eqb c sep then 1 else 0) + count_char sep s'
  end.

(** [s.split('\n')]: never empty, [''.split('\n') == ['']]. *)
Fixpoint split_lines (s : string) : list string :=
  match s with
  | EmptyString => [EmptyString]
  | String c s' =>
      if is_newline c then EmptyString :: split_lines s'
      else match split_lines s' with
           | [] => [String c EmptyString]
           | l :: ls => String c l :: ls
           end
  end.

Fixpoint drop_space (chs : list string) : list string :=
  match chs with
  | [] => []
  | ch :: chs' => if is_space ch then drop_space chs' else chs
  end.

(** [s.lstrip()], [s.rstrip()], [s.strip()] *)
Definition lstrip (s : string) : string := join (drop_space (chars s)).

Definition rstrip (s : string) : string :=
  join (rev (drop_space (rev (chars s)))).

Definition strip (s : string) : string :=
  join (rev (drop_space (rev (drop_space (chars s))))).

Definition digit_value (ch : string) : Z :=
  match digit ch with
  | Some value => value
  | None => 0
  end.

(** The value of [int(s)] for [s] a run of decimal digits, as captured
    by [(\d+)]. *)
Definition int (s : string) : Z :=
  fold_left (fun acc ch => 10 * acc + digit_value ch) (chars s) 0.

(** [sum(1 for x in xs if p(x))] *)
Definition count_if {A} (p : A -> bool) (xs : list A) : Z :=
  fold_left (fun n x => if p x then n + 1 else n) xs 0.

(** [str(n)] for an [int]: decimal digits, with a sign when negative. *)
Definition str_int (n : Z) : string := NilZero.string_of_int (Z.to_int n).

(** [len(s)]: the number of characters. *)
Definition len (s : string) : Z := Z.of_nat (length (chars s)).

(** The truth value of [s] where [s] is [None] or a text. *)
Definition truthy (s : option string) : bool :=
  match s with
  | Some s => negb (String.eqb s EmptyString)
  | None => false
  end.

(** [enumerate(xs)], counting from [i] *)
Fixpoint enumerate_from {A} (i : Z) (xs : list A) : list (Z * A) :=
  match xs with
  | [] => []
  | x :: xs' => (i, x) :: enumerate_from (i + 1) xs'
  end.

Definition enumerate {A} (xs : list A) : list (Z * A) := enumerate_from 0 xs.

(** [s.split(sep)[0]] for a one-character [sep] *)
Fixpoint before (sep : ascii) (s : string) : string :=
  match s with
  | EmptyString => EmptyString
  | String c s' => if Ascii.eqb c sep then EmptyString else String c (before sep s')
  end.

End Py.

(** ** Regular expressions

  The fragment of the [re] syntax that the sources use: single
  characters and character classes, concatenation, greedy and lazy
  repetition of a class, and numbered groups.  [rmatch] is a
  backtracking matcher in continuation-passing style with the
  priorities of [re]: a greedy repetition tries the longest run first,
  a lazy one the shortest, and the first success is the answer.  The
  continuation receives the text consumed, the remaining input and the
  groups set so far. *)

Module Re.

(** A class is a test on a character, given with its bytes. *)
Inductive regex : Type :=
| Eps
| Chr (p : string -> bool)
| Cat (r1 r2 : regex)
| Star (greedy : bool) (p : string -> bool)
| Grp (n : nat) (r : regex).

Definition captures : Type := list (nat * string).

Fixpoint star_greedy {R} (p : string -> bool)
         (k : string -> list string -> option R) (s : list string)
  : option R :=
  match s with
  | ch :: s' =>
      if p ch then
        match star_greedy p (fun m rest => k (ch +:+ m) rest) s' with
        | Some x => Some x
        | None => k EmptyString s
        end
      else k EmptyString s
  | [] => k EmptyString s
  end.

Fixpoint star_lazy {R} (p : string -> bool)
         (k : string -> list string -> option R) (s : list string)
  : option R :=
  match k EmptyString s with
  | Some x => Some x
  | None =>
      match s with
      | ch :: s' =>
          if p ch then star_lazy p (fun m rest => k (ch +:+ m) rest) s'
          else None
      | [] => None
      end
  end.

Fixpoint rmatch (r : regex) (s : list string) (caps : captures)
         (k : string -> list string -> captures -> option captures)
  : option captures :=
  match r with
  | Eps => k EmptyString s caps
  | Chr p =>
      match s with
      | ch :: s' => if p ch then k ch s' caps else None
      | [] => None
      end
  | Cat r1 r2 =>
      rmatch r1 s caps (fun m1 s1 caps1 =>
      rmatch r2 s1 caps1 (fun m2 s2 caps2 =>
      k (m1 +:+ m2) s2 caps2))
  | Star greedy p =>
      if greedy then star_greedy p (fun m rest => k m rest caps) s
      else star_lazy p (fun m rest => k m rest caps) s
  | Grp n r =>
      rmatch r s caps (fun m rest caps' => k m rest ((n, m) :: caps'))
  end.

(** A match anchored at the head of [s]; group 0 is the whole match. *)
Definition match_here (r : regex) (s : list string) : option captures :=
  rmatch r s [] (fun m _ caps => Some ((0%nat, m) :: caps)).

(** The match at the leftmost position that has one. *)
Fixpoint search_chars (r : regex) (s : list string) : option captures :=
  match match_here r s with
  | Some caps => Some caps
  | None =>
      match s with
      | _ :: s' => search_chars r s'
      | [] => None
      end
  end.

(** [re.search(r, s)] *)
Definition search (r : regex) (s : string) : option captures :=
  search_chars r (Py.chars s).

(** Whether a match of [r] in the text [pre ++ tail] starts at one of
    the characters [pre]. *)
Fixpoint starts_within (r : regex) (pre tail : list string) : bool :=
  match pre with
  | [] => false
  | _ :: pre' =>
      match match_here r (pre ++ tail)%list with
      | Some _ => true
      | None => starts_within r pre' tail
      end
  end.

Definition matches_before (r : regex) (pre tail : string) : bool :=
  starts_within r (Py.chars pre) (Py.chars tail).

(** [m.group(n)] for a group that took part in the match. *)
Fixpoint group (n : nat) (caps : captures) : string :=
  match caps with
  | [] => EmptyString
  | (i, m) :: caps' => if Nat.eqb i n then m else group n caps'
  end.

(** The class of one ASCII character, and a class of ASCII characters. *)
Definition chr (c : ascii) : regex := Chr (String.eqb (String c EmptyString)).

Definition byte (p : ascii -> bool) (ch : string) : bool :=
  match ch with
  | String c EmptyString => p c
  | _ => false
  end.

Definition plus (p : string -> bool) : regex := Cat (Chr p) (Star true p).

Fixpoint lit (s : string) : regex :=
  match s with
  | EmptyString => Eps
  | String c s' => Cat (chr c) (lit s')
  end.

(** The class [.]: every character but the line feed. *)
Definition any (ch : string) : bool :=
  negb (String.eqb ch (String "010" EmptyString)).

Definition seq (rs : list regex) : regex := fold_right Cat Eps rs.

End Re.

(** ** The adapter registry ([adapters/__init__.py]) *)

Module Registry.

(** The four adapter classes the registry imports.  Only
    [PythonAdapter] has its module among the sources; the other three
    are known by name. *)
Inductive adapter_class : Type :=
| PythonAdapter
| TypeScriptAdapter
| GoAdapter
| RustAdapter.

Definition ADAPTERS : gmap string adapter_class :=
  <["python" := PythonAdapter]>
  (<["typescript" := TypeScriptAdapter]>
  (<["javascript" := TypeScriptAdapter]>
  (<["go" := GoAdapter]>
  (<["rust" := RustAdapter]> ∅)))).

Definition get_language_adapter (language : string) : adapter_class :=
  let language := Py.lower language in
  match ADAPTERS !! language with
  | Some adapter_class => adapter_class
  | None =>
      if Py.contains "python" language then PythonAdapter
      else if existsb (fun js => Py.contains js language)
                      ["typescript"; "javascript"; "node"; "react"]
      then TypeScriptAdapter
      else if Py.contains "go" language then GoAdapter
      else if Py.contains "rust" language then RustAdapter
      else PythonAdapter
  end.

End Registry.

(** ** Exceptions

  The exception classes that the modelled code can meet.  All of them
  derive from [Exception], so an [except Exception] clause catches
  each of them. *)

Inductive exn : Type :=
| JSONDecodeError
| AttributeError
| TypeError
| OverflowError
| OSError
| UnicodeDecodeError
| ValueError.

Inductive exc (A : Type) : Type :=
| Return (a : A)
| Raise (e : exn).

Arguments Return {A} a.
Arguments Raise {A} e.

(** Sequencing: the first exception raised ends the computation.  The
  notation [x ← m; k] is stdpp's. *)
#[export] Instance exc_bind : MBind exc := fun A B f m =>
match m with
| Return a => f a
| Raise e => Raise e
end.

#[export] Instance exc_ret : MRet exc := fun A a => Return a.

(** ** Python values

  The values [json.loads] can return, with the operations the security
  parser applies to them.  A [float] is an IEEE 754 binary64 number, as
  in CPython.  A [dict] decoded from JSON has text keys; it is kept as
  an association list with distinct keys. *)

Module PyVal.

Inductive pyval : Type :=
| PNone
| PBool (b : bool)
| PInt (z : Z)
| PFloat (f : float)
| PStr (s : string)
| PList (l : list pyval)
| PDict (d : list (string * pyval)).

Fixpoint dict_get (d : list (string * pyval)) (key : string)
         (default : pyval) : pyval :=
  match d with
  | [] => default
  | (k, v) :: d' => if String.eqb k key then v else dict_get d' key default
  end.

(** [v.get(key, default)]: only a [dict] has the method. *)
Definition get (v : pyval) (key : string) (default : pyval) : exc pyval :=
  match v with
  | PDict d => Return (dict_get d key default)
  | _ => Raise AttributeError
  end.

Fixpoint chars (s : string) : list pyval :=
  match s with
  | EmptyString => []
  | String c s' => PStr (String c EmptyString) :: chars s'
  end.

(** The items a [for] loop over [v] visits: the elements of a list,
    the keys of a dict, the characters of a text. *)
Definition iter (v : pyval) : exc (list pyval) :=
  match v with
  | PList l => Return l
  | PDict d => Return (map (fun kv => PStr (fst kv)) d)
  | PStr s => Return (chars s)
  | _ => Raise TypeError
  end.

(** [bool] is a subclass of [int]. *)
Definition as_int (v : pyval) : option Z :=
  match v with
  | PBool b => Some (if b then 1 else 0)
  | PInt z => Some z
  | _ => None
  end.

(** Conversion of an [int] operand to [float], rounding to nearest
    even; too large an integer raises [OverflowError]. *)
Definition float_of_int (z : Z) : exc float :=
  let f := SF2Prim (binary_normalize prec emax z 0 false) in
  if PrimFloat.is_infinity f then Raise OverflowError else Return f.

(** [a + b] *)
Definition add (a b : pyval) : exc pyval :=
  match a, b with
  | PFloat x, PFloat y => Return (PFloat (PrimFloat.add x y))
  | PFloat x, _ =>
      match as_int b with
      | Some z => y ← float_of_int z; Return (PFloat (PrimFloat.add x y))
      | None => Raise TypeError
      end
  | _, PFloat y =>
      match as_int a with
      | Some z => x ← float_of_int z; Return (PFloat (PrimFloat.add x y))
      | None => Raise TypeError
      end
  | PStr x, PStr y => Return (PStr (x +:+ y))
  | PList x, PList y => Return (PList (x ++ y))
  | _, _ =>
      match as_int a, as_int b with
      | Some x, Some y => Return (PInt (x + y))
      | _, _ => Raise TypeError
      end
  end.

(** Exact comparison of a float with an integer. *)
Definition float_eq_int (f : float) (z : Z) : bool :=
  match Prim2SF f with
  | S754_zero _ => Z.eqb z 0
  | S754_finite s m e =>
      let v := if s then Z.neg m else Z.pos m in
      match e with
      | Z.neg k => Z.eqb v (z * 2 ^ Z.pos k)
      | _ => Z.eqb (v * 2 ^ e) z
      end
  | _ => false
  end.

(** [v == z] for an integer [z] *)
Definition eq_int (v : pyval) (z : Z) : bool :=
  match v with
  | PFloat f => float_eq_int f z
  | _ => match as_int v with
         | Some x => Z.eqb x z
         | None => false
         end
  end.

Definition hashable (v : pyval) : bool :=
  match v with
  | PList _ | PDict _ => false
  | _ => true
  end.

(** Whether two hashable values are the same dictionary key: equal
    as numbers, as texts, or both [None].  The decoder returns one
    shared object for every [NaN], which a key lookup finds by
    identity. *)
Definition key_eqb (a b : pyval) : bool :=
  match a, b with
  | PNone, PNone => true
  | PStr x, PStr y => String.eqb x y
  | PFloat x, PFloat y =>
      PrimFloat.eqb x y || (PrimFloat.is_nan x && PrimFloat.is_nan y)
  | PFloat x, _ =>
      match as_int b with Some z => float_eq_int x z | None => false end
  | _, PFloat y =>
      match as_int a with Some z => float_eq_int y z | None => false end
  | _, _ =>
      match as_int a, as_int b with
      | Some x, Some y => Z.eqb x y
      | _, _ => false
      end
  end.

(** [d[key] = d.get(key, 0) + 1] on a dictionary of counters *)
Fixpoint bump (key : pyval) (d : list (pyval * Z)) : list (pyval * Z) :=
  match d with
  | [] => [(key, 0 + 1)]
  | (k, n) :: d' =>
      if key_eqb k key then (k, n + 1) :: d' else (k, n) :: bump key d'
  end.

Definition count_key (key : pyval) (d : list (pyval * Z))
  : exc (list (pyval * Z)) :=
  if hashable key then Return (bump key d) else Raise TypeError.

End PyVal.

(** ** The generic adapter ([adapters/base.py]) *)

Module BaseAdapter.

Record test_result : Type := TestResult {
  passed : Z;
  failed : Z;
  total : Z;
  success : bool
}.

Record lint_result : Type := LintResult {
  errors : Z;
  warnings : Z;
  lint_total_issues : Z;
  lint_success : bool
}.

Record security_result : Type := SecurityResult {
  high : Z;
  medium : Z;
  low : Z;
  total_issues : Z;
  security_success : bool
}.

Definition parse_test_output (output : string) : test_result :=
  let lines := Py.split_lines output in
  let passed := Py.count_if (fun line =>
    Py.contains "PASSED" line || Py.contains "PASS" line
    || Py.contains "✓" line) lines in
  let failed := Py.count_if (fun line =>
    Py.contains "FAILED" line || Py.contains "FAIL" line
    || Py.contains "✗" line) lines in
  {| passed := passed;
     failed := failed;
     total := passed + failed;
     success := Z.eqb failed 0 |}.

Definition parse_lint_output (output : string) : lint_result :=
  let lines := Py.split_lines output in
  let errors := Py.count_if (fun line =>
    Py.contains "error" (Py.lower line)) lines in
  let warnings := Py.count_if (fun line =>
    Py.contains "warning" (Py.lower line)) lines in
  {| errors := errors;
     warnings := warnings;
     lint_total_issues := errors + warnings;
     lint_success := Z.eqb errors 0 |}.

Definition severity_line (level line : string) : bool :=
  Py.contains level (Py.lower line)
  && (Py.contains "severity" (Py.lower line)
      || Py.contains "risk" (Py.lower line)).

Definition parse_security_output (output : string) : security_result :=
  let lines := Py.split_lines output in
  let high := Py.count_if (severity_line "high") lines in
  let medium := Py.count_if (severity_line "medium") lines in
  let low := Py.count_if (severity_line "low") lines in
  {| high := high;
     medium := medium;
     low := low;
     total_issues := high + medium + low;
     security_success := Z.eqb high 0 |}.

Definition complexity_keywords : list string :=
  ["if"; "elif"; "else"; "for"; "while"; "try"; "except"; "switch"; "case"].

(** [read_text] is the outcome of [file_path.read_text()]. *)
Definition estimate_complexity (read_text : exc string) : Z :=
  match read_text with
  | Return content =>
      let lines := Py.split_lines content in
      fold_left (fun complexity line =>
        fold_left (fun complexity keyword =>
          if Py.contains keyword line then complexity + 1 else complexity)
          complexity_keywords complexity)
        lines 1
  | Raise _ => 0
  end.

Definition get_function_count (read_text : exc string) : Z :=
  match read_text with
  | Return content =>
      let lines := Py.split_lines content in
      fold_left (fun function_count line =>
        if existsb (fun keyword => Py.contains keyword line)
                   ["def "; "function "; "func "]
        then function_count + 1 else function_count)
        lines 0
  | Raise _ => 0
  end.

(** The variables of the loop of [validate_function_length]. *)
Record length_scan : Type := LengthScan {
  violations : list string;
  current_function : option string;
  function_start : Z
}.

(** [f"{current_function} exceeds {max_lines} lines ({n} lines)"] *)
Definition violation (current_function : string) (max_lines n : Z)
  : string :=
  current_function +:+ " exceeds " +:+ Py.str_int max_lines +:+ " lines ("
  +:+ Py.str_int n +:+ " lines)".

(** [violations] after the check of the function that ends at line [i]. *)
Definition check_function (max_lines : Z) (st : length_scan) (i : Z)
  : list string :=
  match current_function st with
  | Some f =>
      if Py.truthy (Some f) && (max_lines <? i - function_start st)%Z
      then (violations st ++ [violation f max_lines (i - function_start st)])%list
      else violations st
  | None => violations st
  end.

(** One iteration of [for i, line in enumerate(lines)]. *)
Definition check_line (max_lines : Z) (st : length_scan)
           (step : Z * string) : length_scan :=
  let '(i, line) := step in
  if Py.contains "def " line || Py.contains "function " line then
    {| violations := check_function max_lines st i;
       current_function := Some (Py.strip line);
       function_start := i |}
  else st.

Definition validate_function_length (read_text : exc string) (max_lines : Z)
  : list string :=
  match read_text with
  | Return content =>
      let lines := Py.split_lines content in
      let st := fold_left (check_line max_lines) (Py.enumerate lines)
                  {| violations := [];
                     current_function := None;
                     function_start := 0 |} in
      check_function max_lines st (Z.of_nat (length lines))
  | Raise _ => []
  end.

End BaseAdapter.

(** ** The Python adapter ([adapters/python_adapter.py]) *)

Module PythonAdapter.

Definition language : string := "python".

Record test_result : Type := TestResult {
  passed : Z;
  failed : Z;
  skipped : Z;
  total : Z;
  coverage : option Z;
  success : bool;
  status : string
}.

(** The variables of the loop over the lines. *)
Record tally : Type := Tally {
  t_passed : Z;
  t_failed : Z;
  t_skipped : Z;
  t_coverage : option Z
}.

Definition marked (word line : string) : bool :=
  Py.contains (" " +:+ word) line
  || Py.contains "::" line && Py.contains word line.

(** [(\d+)%] *)
Definition coverage_pattern : Re.regex :=
  Re.Cat (Re.Grp 1 (Re.plus Py.is_digit)) (Re.chr "%").

(** One iteration of [for line in lines]. *)
Definition scan_line (t : tally) (line : string) : tally :=
  let t :=
    if marked "PASSED" line then
      {| t_passed := t_passed t + 1; t_failed := t_failed t;
         t_skipped := t_skipped t; t_coverage := t_coverage t |}
    else if marked "FAILED" line then
      {| t_passed := t_passed t; t_failed := t_failed t + 1;
         t_skipped := t_skipped t; t_coverage := t_coverage t |}
    else if marked "SKIPPED" line then
      {| t_passed := t_passed t; t_failed := t_failed t;
         t_skipped := t_skipped t + 1; t_coverage := t_coverage t |}
    else t in
  if Py.contains "TOTAL" line && Py.contains "%" line then
    match Re.search coverage_pattern line with
    | Some coverage_match =>
        {| t_passed := t_passed t; t_failed := t_failed t;
           t_skipped := t_skipped t;
           t_coverage := Some (Py.int (Re.group 1 coverage_match)) |}
    | None => t
    end
  else t.

Definition scan (lines : list string) : tally :=
  fold_left scan_line lines
    {| t_passed := 0; t_failed := 0; t_skipped := 0; t_coverage := None |}.

Definition digit_or_dot (ch : string) : bool :=
  Py.is_digit ch || String.eqb ch ".".

(** [=+\s*(\d+)\s+failed.*?(\d+)\s+passed.*?in\s+([\d.]+)s] *)
Definition summary_pattern : Re.regex :=
  Re.seq [
    Re.plus (String.eqb "=");
    Re.Star true Py.is_space;
    Re.Grp 1 (Re.plus Py.is_digit);
    Re.plus Py.is_space;
    Re.lit "failed";
    Re.Star false Re.any;
    Re.Grp 2 (Re.plus Py.is_digit);
    Re.plus Py.is_space;
    Re.lit "passed";
    Re.Star false Re.any;
    Re.lit "in";
    Re.plus Py.is_space;
    Re.Grp 3 (Re.plus digit_or_dot);
    Re.lit "s"
  ].

(** [parse_test_output] where no conversion [int(text)] meets the
    limit of the interpreter on the number of digits (see
    [parse_test_output_with] below, which has the limit). *)
Definition parse_test_output (output : string) : test_result :=
  let lines := Py.split_lines output in
  let t := scan lines in
  let '(passed, failed) :=
    match Re.search summary_pattern output with
    | Some summary_match =>
        (Py.int (Re.group 2 summary_match),
         Py.int (Re.group 1 summary_match))
    | None => (t_passed t, t_failed t)
    end in
  {| passed := passed;
     failed := failed;
     skipped := t_skipped t;
     total := passed + failed + t_skipped t;
     coverage := t_coverage t;
     success := Z.eqb failed 0;
     status := if Z.eqb failed 0 then "PASS" else "FAIL" |}.

(** The limit of the interpreter on the number of digits that
    [int(text)] converts: [sys.int_info.default_max_str_digits]. *)
Definition default_max_str_digits : Z := 4300.

(** [int(text)] on a run of digits, under the limit [max_str_digits]
    of the interpreter: a longer run raises [ValueError]; the limit 0
    stands for no limit, as in [sys.set_int_max_str_digits]. *)
Definition int_limited (max_str_digits : Z) (text : string) : exc Z :=
  if (0 <? max_str_digits)%Z && (max_str_digits <? Py.len text)%Z
  then Raise ValueError
  else Return (Py.int text).

(** One iteration of [for line in lines], under the limit. *)
Definition scan_line_with (max_str_digits : Z) (t : tally) (line : string)
  : exc tally :=
  let t :=
    if marked "PASSED" line then
      {| t_passed := t_passed t + 1; t_failed := t_failed t;
         t_skipped := t_skipped t; t_coverage := t_coverage t |}
    else if marked "FAILED" line then
      {| t_passed := t_passed t; t_failed := t_failed t + 1;
         t_skipped := t_skipped t; t_coverage := t_coverage t |}
    else if marked "SKIPPED" line then
      {| t_passed := t_passed t; t_failed := t_failed t;
         t_skipped := t_skipped t + 1; t_coverage := t_coverage t |}
    else t in
  if Py.contains "TOTAL" line && Py.contains "%" line then
    match Re.search coverage_pattern line with
    | Some coverage_match =>
        coverage ← int_limited max_str_digits (Re.group 1 coverage_match);
        Return {| t_passed := t_passed t; t_failed := t_failed t;
                  t_skipped := t_skipped t;
                  t_coverage := Some coverage |}
    | None => Return t
    end
  else Return t.

Definition scan_with (max_str_digits : Z) (lines : list string) : exc tally :=
  fold_left (fun scanned line =>
               t ← scanned; scan_line_with max_str_digits t line)
    lines
    (Return {| t_passed := 0; t_failed := 0; t_skipped := 0;
               t_coverage := None |}).

(** [parse_test_output] under the limit [max_str_digits] on integer
    conversions: the first conversion beyond the limit raises
    [ValueError], which the function does not handle. *)
Definition parse_test_output_with (max_str_digits : Z) (output : string)
  : exc test_result :=
  let lines := Py.split_lines output in
  t ← scan_with max_str_digits lines;
  counts ←
    match Re.search summary_pattern output with
    | Some summary_match =>
        failed ← int_limited max_str_digits (Re.group 1 summary_match);
        passed ← int_limited max_str_digits (Re.group 2 summary_match);
        Return (passed, failed)
    | None => Return (t_passed t, t_failed t)
    end;
  let '(passed, failed) := counts in
  Return {| passed := passed;
            failed := failed;
            skipped := t_skipped t;
            total := passed + failed + t_skipped t;
            coverage := t_coverage t;
            success := Z.eqb failed 0;
            status := if Z.eqb failed 0 then "PASS" else "FAIL" |}.

(** Whether the conversion of the coverage figure of the line, when
    the line has one, stays within the limit. *)
Definition coverage_fits (max_str_digits : Z) (line : string) : bool :=
  if Py.contains "TOTAL" line && Py.contains "%" line then
    match Re.search coverage_pattern line with
    | Some coverage_match =>
        negb ((0 <? max_str_digits)%Z
              && (max_str_digits <? Py.len (Re.group 1 coverage_match))%Z)
    | None => true
    end
  else true.

Record lint_result : Type := LintResult {
  errors : Z;
  warnings : Z;
  lint_total_issues : Z;
  lint_issues_by_type : gmap string Z;
  lint_success : bool;
  lint_status : string
}.

Record lint_tally : Type := LintTally {
  l_errors : Z;
  l_warnings : Z;
  l_issues_by_type : gmap string Z
}.

(** [[A-Z]\d{3}] *)
Definition code_pattern : Re.regex :=
  Re.seq [Re.Chr (Re.byte Py.is_upper); Re.Chr Py.is_digit;
          Re.Chr Py.is_digit; Re.Chr Py.is_digit].

Definition lint_line (t : lint_tally) (line : string) : lint_tally :=
  if Py.contains ":" line && bool_decide (is_Some (Re.search code_pattern line))
  then
    match Re.search (Re.Grp 1 code_pattern) line with
    | Some code_match =>
        let code := Re.group 1 code_match in
        let issues_by_type :=
          <[code := default 0 (l_issues_by_type t !! code) + 1]>
            (l_issues_by_type t) in
        if Py.startswith code "E" || Py.startswith code "F" then
          {| l_errors := l_errors t + 1; l_warnings := l_warnings t;
             l_issues_by_type := issues_by_type |}
        else
          {| l_errors := l_errors t; l_warnings := l_warnings t + 1;
             l_issues_by_type := issues_by_type |}
    | None => t
    end
  else t.

Definition parse_lint_output (output : string) : lint_result :=
  let lines := Py.split_lines output in
  let t := fold_left lint_line lines
    {| l_errors := 0; l_warnings := 0; l_issues_by_type := ∅ |} in
  {| errors := l_errors t;
     warnings := l_warnings t;
     lint_total_issues := l_errors t + l_warnings t;
     lint_issues_by_type := l_issues_by_type t;
     lint_success := Z.eqb (l_errors t) 0;
     lint_status := if Z.eqb (l_errors t) 0 then "PASS" else "ISSUES" |}.

(** The dictionary built from a decoded report. *)
Record findings : Type := Findings {
  high : PyVal.pyval;
  medium : PyVal.pyval;
  low : PyVal.pyval;
  total_issues : PyVal.pyval;
  issues_by_type : list (PyVal.pyval * Z);
  security_success : bool;
  security_status : string
}.

(** What [parse_security_output] returns: the dictionary above, or the
    generic adapter's dictionary when the output is not JSON. *)
Inductive security_result : Type :=
| FromJson (r : findings)
| FromText (r : BaseAdapter.security_result).

Definition result_success (r : security_result) : bool :=
  match r with
  | FromJson r => security_success r
  | FromText r => BaseAdapter.security_success r
  end.

(** The loop [for result in results] *)
Fixpoint count_results (results : list PyVal.pyval)
         (issues_by_type : list (PyVal.pyval * Z))
  : exc (list (PyVal.pyval * Z)) :=
  match results with
  | [] => Return issues_by_type
  | result :: results' =>
      test_id ← PyVal.get result "test_id" (PyVal.PStr "unknown");
      issues_by_type ← PyVal.count_key test_id issues_by_type;
      count_results results' issues_by_type
  end.

(** The body of the [try] block, given what [json.loads] does. *)
Definition parse_report (json_loads : string -> exc PyVal.pyval)
           (output : string) : exc findings :=
  bandit_data ← json_loads output;
  metrics ← PyVal.get bandit_data "metrics" (PyVal.PDict []);
  totals ← PyVal.get metrics "_totals" (PyVal.PDict []);
  high ← PyVal.get totals "SEVERITY.HIGH" (PyVal.PInt 0);
  medium ← PyVal.get totals "SEVERITY.MEDIUM" (PyVal.PInt 0);
  low ← PyVal.get totals "SEVERITY.LOW" (PyVal.PInt 0);
  results ← PyVal.get bandit_data "results" (PyVal.PList []);
  items ← PyVal.iter results;
  issues_by_type ← count_results items [];
  high_medium ← PyVal.add high medium;
  total_issues ← PyVal.add high_medium low;
  Return {| high := high;
            medium := medium;
            low := low;
            total_issues := total_issues;
            issues_by_type := issues_by_type;
            security_success := PyVal.eq_int high 0;
            security_status :=
              if PyVal.eq_int high 0 then "CLEAR" else "ISSUES" |}.

(** [json_loads] stands for the standard library's [json.loads]. *)
Definition parse_security_output (json_loads : string -> exc PyVal.pyval)
           (output : string) : exc security_result :=
  match parse_report json_loads output with
  | Return r => Return (FromJson r)
  | Raise JSONDecodeError =>
      Return (FromText (BaseAdapter.parse_security_output output))
  | Raise e => Raise e
  end.

Definition complexity_keywords : list string :=
  ["if "; "elif "; "else:"; "for "; "while "; "try:"; "except ";
   "with "; "and "; "or "; "lambda"; "?"].

Definition estimate_complexity (read_text : exc string) : Z :=
  match read_text with
  | Return content =>
      let lines := Py.split_lines content in
      fold_left (fun complexity line =>
        let stripped := Py.strip line in
        fold_left (fun complexity keyword =>
          if Py.contains keyword stripped then complexity + 1
          else complexity)
          complexity_keywords complexity)
        lines 1
  | Raise _ => 0
  end.

Definition get_function_count (read_text : exc string) : Z :=
  match read_text with
  | Return content =>
      let lines := Py.split_lines content in
      fold_left (fun function_count line =>
        let stripped := Py.strip line in
        if Py.startswith stripped "def "
           || Py.startswith stripped "async def "
        then function_count + 1 else function_count)
        lines 0
  | Raise _ => 0
  end.

(** The variables of the loop of [validate_function_length]. *)
Record length_scan : Type := LengthScan {
  violations : list string;
  current_function : option string;
  function_start : Z;
  indent_level : Z
}.

(** [f"{file_path.name}:{function_start + 1} - {current_function} "
    f"exceeds {max_lines} lines ({n} lines)"], [name] being
    [file_path.name]. *)
Definition violation (name : string) (function_start : Z)
           (current_function : string) (max_lines n : Z) : string :=
  name +:+ ":" +:+ Py.str_int (function_start + 1) +:+ " - "
  +:+ current_function +:+ " exceeds " +:+ Py.str_int max_lines
  +:+ " lines (" +:+ Py.str_int n +:+ " lines)".

(** [len(line) - len(line.lstrip())] *)
Definition indent (line : string) : Z :=
  Py.len line - Py.len (Py.lstrip line).

(** [violations] after the check of the function that ends at line [i]. *)
Definition check_function (name : string) (max_lines : Z)
           (st : length_scan) (i : Z) : list string :=
  match current_function st with
  | Some f =>
      if Py.truthy (Some f) && (max_lines <? i - function_start st)%Z
      then (violations st
            ++ [violation name (function_start st) f max_lines
                  (i - function_start st)])%list
      else violations st
  | None => violations st
  end.

(** One iteration of [for i, line in enumerate(lines)]. *)
Definition check_line (name : string) (max_lines : Z) (st : length_scan)
           (step : Z * string) : length_scan :=
  let '(i, line) := step in
  let stripped := Py.strip line in
  if Py.startswith stripped "def " || Py.startswith stripped "async def "
  then
    {| violations := check_function name max_lines st i;
       current_function := Some (Py.before "(" stripped);
       function_start := i;
       indent_level := indent line |}
  else
    match current_function st with
    | Some f =>
        if Py.truthy (Some f)
           && negb (String.eqb (Py.strip line) EmptyString)
           && (indent line <=? indent_level st)%Z
        then
          if negb (existsb (Py.startswith stripped)
                           ["def "; "async def "; "class "; "@"])
          then
            {| violations :=
                 if (max_lines <? i - function_start st)%Z
                 then (violations st
                       ++ [violation name (function_start st) f max_lines
                             (i - function_start st)])%list
                 else violations st;
               current_function := None;
               function_start := function_start st;
               indent_level := indent_level st |}
          else st
        else st
    | None => st
    end.

(** [path] is [str(file_path)], [name] is [file_path.name] and
    [message e] is [str(e)] for the exception that [read_text] raised. *)
Definition validate_function_length (path name : string)
           (message : exn -> string) (read_text : exc string)
           (max_lines : Z) : list string :=
  match read_text with
  | Return content =>
      let lines := Py.split_lines content in
      let st := fold_left (check_line name max_lines) (Py.enumerate lines)
                  {| violations := [];
                     current_function := None;
                     function_start := 0;
                     indent_level := 0 |} in
      check_function name max_lines st (Z.of_nat (length lines))
  | Raise e => ["Error analyzing " +:+ path +:+ ": " +:+ message e]
  end.

End PythonAdapter.

(** ** The project type classifier ([init.py]) *)

Module Init.

(** A template of [PROJECT_TEMPLATES]: the fields the classifier reads
    and the language and project type of its [config].  The tool and
    metric tables of [config] play no part in what follows. *)
Record template : Type := Template {
  description : string;
  indicators : list string;
  keywords : list string;
  config_language : string;
  config_project_type : string
}.

(** The catalogue, in the order of the dictionary literal. *)
Definition PROJECT_TEMPLATES : list (string * template) := [
  ("python_ml",
   {| description := "Python ML/AI project with scikit-learn, tensorflow, etc.";
      indicators := ["requirements.txt"; "setup.py"; "pyproject.toml"];
      keywords := ["tensorflow"; "torch"; "sklearn"; "numpy"; "pandas"; "jupyter"];
      config_language := "python";
      config_project_type := "ml" |});
  ("python_api",
   {| description := "Python API/web service (FastAPI, Django, Flask)";
      indicators := ["requirements.txt"; "app.py"; "main.py"; "manage.py"];
      keywords := ["fastapi"; "django"; "flask"; "uvicorn"; "gunicorn"];
      config_language := "python";
      config_project_type := "api" |});
  ("typescript_node",
   {| description := "TypeScript/Node.js project (API, CLI, library)";
      indicators := ["package.json"; "tsconfig.json"];
      keywords := ["typescript"; "node"; "express"; "nestjs"];
      config_language := "typescript";
      config_project_type := "node" |});
  ("react_frontend",
   {| description := "React frontend application";
      indicators := ["package.json"; "src/App.tsx"; "src/App.jsx";
                     "public/index.html"];
      keywords := ["react"; "next"; "vite"; "webpack"];
      config_language := "typescript";
      config_project_type := "frontend" |});
  ("go_service",
   {| description := "Go microservice or CLI application";
      indicators := ["go.mod"; "main.go"];
      keywords := ["gin"; "echo"; "chi"; "gorilla"; "grpc"];
      config_language := "go";
      config_project_type := "service" |});
  ("rust_project",
   {| description := "Rust application or library";
      indicators := ["Cargo.toml"; "src/main.rs"; "src/lib.rs"];
      keywords := ["tokio"; "serde"; "clap"; "actix"; "warp"];
      config_language := "rust";
      config_project_type := "application" |})
].

(** [PROJECT_TEMPLATES[name]] *)
Fixpoint lookup_template (name : string) (ts : list (string * template))
  : option template :=
  match ts with
  | [] => None
  | (n, t) :: ts' => if String.eqb n name then Some t else lookup_template name ts'
  end.

(** A snapshot of the file system below [project_path]: a file with
    the outcome of reading its text, or a directory with its entries
    by name. *)
Inductive node : Type :=
| File (read_text : exc string)
| Dir (entries : list (string * node)).

Definition is_dir (n : node) : bool :=
  match n with Dir _ => true | File _ => false end.

Definition dir_names (entries : list (string * node)) : list string :=
  map fst (List.filter (fun e => is_dir (snd e)) entries).

Definition file_names (entries : list (string * node)) : list string :=
  map fst (List.filter (fun e => negb (is_dir (snd e))) entries).

Fixpoint ends_with_sep (s : string) : bool :=
  match s with
  | EmptyString => false
  | String c EmptyString => Ascii.eqb c "/"
  | String _ s' => ends_with_sep s'
  end.

(** [os.path.join(top, name)] on POSIX, for a relative [name] *)
Definition path_join (top name : string) : string :=
  if ends_with_sep top then top +:+ name else top +:+ "/" +:+ name.

(** [os.walk(top)], top-down: one triple [(root, dirs, files)] per
    directory, the names being those of the directory's own entries.
    Nothing is produced when [top] is not a directory. *)
Fixpoint walk (top : string) (n : node)
  : list (string * list string * list string) :=
  match n with
  | File _ => []
  | Dir entries =>
      (top, dir_names entries, file_names entries) ::
      (fix below (es : list (string * node)) :=
         match es with
         | [] => []
         | (name, child) :: es' =>
             (walk (path_join top name) child ++ below es')%list
         end) entries
  end.

Definition ignored (root : string) : bool :=
  existsb (fun ignore => Py.contains ignore root)
          [".git"; "node_modules"; "__pycache__"; ".venv"].

Definition too_deep (project_path root : string) : bool :=
  (3 <? Py.count_char "/" root - Py.count_char "/" project_path)%Z.

(** The first loop: the names of the files met by the walk. *)
Definition files_in_project (project_path : string) (tree : node)
  : gset string :=
  fold_left (fun (files_in_project : gset string) step =>
    let '(root, _, files) := step in
    if ignored root then files_in_project
    else if too_deep project_path root then files_in_project
    else files_in_project ∪ list_to_set files)
    (walk project_path tree) ∅.

Fixpoint entry (name : string) (entries : list (string * node))
  : option node :=
  match entries with
  | [] => None
  | (n, child) :: entries' =>
      if String.eqb n name then Some child else entry name entries'
  end.

(** The text of [project_path / file_name] when it exists and can be
    read; every failure is swallowed by the bare [except]. *)
Definition manifest_text (tree : node) (file_name : string) : option string :=
  match tree with
  | Dir entries =>
      match entry file_name entries with
      | Some (File (Return content)) => Some content
      | _ => None
      end
  | File _ => None
  end.

Definition manifest_files : list string :=
  ["package.json"; "requirements.txt"; "Cargo.toml"; "go.mod";
   "pyproject.toml"].

(** The second loop: the templates one of whose keywords occurs in a
    manifest. *)
Definition keywords_found (tree : node) : gset string :=
  fold_left (fun (keywords_found : gset string) file_name =>
    match manifest_text tree file_name with
    | Some text =>
        let content := Py.lower text in
        fold_left (fun (keywords_found : gset string) nt =>
          fold_left (fun (keywords_found : gset string) keyword =>
            if Py.contains keyword content
            then keywords_found ∪ {[ fst nt ]}
            else keywords_found)
            (keywords (snd nt)) keywords_found)
          PROJECT_TEMPLATES keywords_found
    | None => keywords_found
    end)
    manifest_files ∅.

Definition score (files : gset string) (found : gset string)
           (template_name : string) (t : template) : Z :=
  let score :=
    fold_left (fun score indicator =>
      if bool_decide (indicator ∈ files) then score + 3 else score)
      (indicators t) 0 in
  if bool_decide (template_name ∈ found) then score + 5 else score.

(** The dictionary [scores], in insertion order. *)
Definition scores (project_path : string) (tree : node)
  : list (string * Z) :=
  let files := files_in_project project_path tree in
  let found := keywords_found tree in
  map (fun nt => (fst nt, score files found (fst nt) (snd nt)))
      PROJECT_TEMPLATES.

(** [max(scores.values())] on a dictionary that is not empty *)
Definition max_value (first : string * Z) (rest : list (string * Z)) : Z :=
  fold_left (fun best x => Z.max best (snd x)) rest (snd first).

(** [max(scores, key=scores.get)]: the first of the keys with the
    greatest score. *)
Definition max_key (first : string * Z) (rest : list (string * Z))
  : string :=
  fst (fold_left (fun best x => if (snd best <? snd x)%Z then x else best)
                 rest first).

Definition detect_project_type (project_path : string) (tree : node)
  : string :=
  match scores project_path tree with
  | [] => "python_api"
  | first :: rest =>
      if (0 <? max_value first rest)%Z then max_key first rest
      else "python_api"
  end.

(** The [config] dictionaries of [PROJECT_TEMPLATES], by template, in
    the order of the literal. *)
Definition CONFIGS : list (string * list (string * PyVal.pyval)) := [
  ("python_ml", [
       ("language", PyVal.PStr "python");
       ("project_type", PyVal.PStr "ml");
       ("tools", PyVal.PDict [
          ("lint", PyVal.PStr "ruff check .");
          ("format", PyVal.PStr "ruff format .");
          ("test", PyVal.PStr "pytest --cov=src tests/");
          ("security", PyVal.PStr "bandit -r src/ && safety check");
          ("typecheck", PyVal.PStr "mypy src/")]);
       ("metrics", PyVal.PDict [
          ("performance", PyVal.PDict [
             ("training_time", PyVal.PDict [
                ("target", PyVal.PInt (-10));
                ("cap", PyVal.PInt 20);
                ("unit", PyVal.PStr "%")]);
             ("inference_latency", PyVal.PDict [
                ("target", PyVal.PInt (-5));
                ("cap", PyVal.PInt 15);
                ("unit", PyVal.PStr "%")]);
             ("memory_usage", PyVal.PDict [
                ("target", PyVal.PInt 0);
                ("cap", PyVal.PInt 20);
                ("unit", PyVal.PStr "%")])]);
          ("quality", PyVal.PDict [
             ("test_coverage", PyVal.PDict [
                ("target", PyVal.PInt 80);
                ("absolute", PyVal.PBool true);
                ("unit", PyVal.PStr "%")]);
             ("model_accuracy", PyVal.PDict [
                ("target", PyVal.PFloat 0x1.b333333333333p-1%float);  (* 0.85 *)
                ("absolute", PyVal.PBool true);
                ("unit", PyVal.PStr "score")])])])]);
  ("python_api", [
       ("language", PyVal.PStr "python");
       ("project_type", PyVal.PStr "api");
       ("tools", PyVal.PDict [
          ("lint", PyVal.PStr "ruff check .");
          ("format", PyVal.PStr "ruff format .");
          ("test", PyVal.PStr "pytest --cov=. tests/");
          ("security", PyVal.PStr "bandit -r . && safety check");
          ("typecheck", PyVal.PStr "mypy .")]);
       ("metrics", PyVal.PDict [
          ("performance", PyVal.PDict [
             ("response_time", PyVal.PDict [
                ("target", PyVal.PInt (-5));
                ("cap", PyVal.PInt 10);
                ("unit", PyVal.PStr "%")]);
             ("throughput", PyVal.PDict [
                ("target", PyVal.PInt 5);
                ("cap", PyVal.PInt (-10));
                ("unit", PyVal.PStr "%")]);
             ("memory_usage", PyVal.PDict [
                ("target", PyVal.PInt 0);
                ("cap", PyVal.PInt 15);
                ("unit", PyVal.PStr "%")])])])]);
  ("typescript_node", [
       ("language", PyVal.PStr "typescript");
       ("project_type", PyVal.PStr "node");
       ("tools", PyVal.PDict [
          ("lint", PyVal.PStr "eslint . --max-warnings 0");
          ("format", PyVal.PStr "prettier --write .");
          ("test", PyVal.PStr "vitest --run --coverage");
          ("security", PyVal.PStr "npm audit && semgrep --config auto");
          ("typecheck", PyVal.PStr "tsc --noEmit");
          ("build", PyVal.PStr "npm run build")]);
       ("metrics", PyVal.PDict [
          ("performance", PyVal.PDict [
             ("response_time", PyVal.PDict [
                ("target", PyVal.PInt (-5));
                ("cap", PyVal.PInt 10);
                ("unit", PyVal.PStr "%")]);
             ("memory_usage", PyVal.PDict [
                ("target", PyVal.PInt 0);
                ("cap", PyVal.PInt 15);
                ("unit", PyVal.PStr "%")]);
             ("bundle_size", PyVal.PDict [
                ("target", PyVal.PInt 0);
                ("cap", PyVal.PInt 5);
                ("unit", PyVal.PStr "%")])])])]);
  ("react_frontend", [
       ("language", PyVal.PStr "typescript");
       ("project_type", PyVal.PStr "frontend");
       ("tools", PyVal.PDict [
          ("lint", PyVal.PStr "eslint . --max-warnings 0");
          ("format", PyVal.PStr "prettier --write .");
          ("test", PyVal.PStr "vitest --run --coverage");
          ("security", PyVal.PStr "npm audit");
          ("typecheck", PyVal.PStr "tsc --noEmit");
          ("build", PyVal.PStr "npm run build")]);
       ("metrics", PyVal.PDict [
          ("performance", PyVal.PDict [
             ("bundle_size", PyVal.PDict [
                ("target", PyVal.PInt 0);
                ("cap", PyVal.PInt 5);
                ("unit", PyVal.PStr "%")]);
             ("lighthouse_performance", PyVal.PDict [
                ("target", PyVal.PInt 90);
                ("absolute", PyVal.PBool true);
                ("unit", PyVal.PStr "score")]);
             ("first_contentful_paint", PyVal.PDict [
                ("target", PyVal.PInt (-10));
                ("cap", PyVal.PInt 10);
                ("unit", PyVal.PStr "%")])])])]);
  ("go_service", [
       ("language", PyVal.PStr "go");
       ("project_type", PyVal.PStr "service");
       ("tools", PyVal.PDict [
          ("lint", PyVal.PStr "golangci-lint run");
          ("format", PyVal.PStr "gofmt -w . && goimports -w .");
          ("test", PyVal.PStr "go test -v -race -cover ./...");
          ("security", PyVal.PStr "gosec ./...");
          ("build", PyVal.PStr "go build -o bin/ ./...")]);
       ("metrics", PyVal.PDict [
          ("performance", PyVal.PDict [
             ("response_time", PyVal.PDict [
                ("target", PyVal.PInt (-5));
                ("cap", PyVal.PInt 10);
                ("unit", PyVal.PStr "%")]);
             ("memory_usage", PyVal.PDict [
                ("target", PyVal.PInt 0);
                ("cap", PyVal.PInt 15);
                ("unit", PyVal.PStr "%")]);
             ("binary_size", PyVal.PDict [
                ("target", PyVal.PInt 0);
                ("cap", PyVal.PInt 10);
                ("unit", PyVal.PStr "%")])])])]);
  ("rust_project", [
       ("language", PyVal.PStr "rust");
       ("project_type", PyVal.PStr "application");
       ("tools", PyVal.PDict [
          ("lint", PyVal.PStr "cargo clippy -- -D warnings");
          ("format", PyVal.PStr "cargo fmt");
          ("test", PyVal.PStr "cargo test");
          ("security", PyVal.PStr "cargo audit");
          ("build", PyVal.PStr "cargo build --release")]);
       ("metrics", PyVal.PDict [
          ("performance", PyVal.PDict [
             ("compile_time", PyVal.PDict [
                ("target", PyVal.PInt (-5));
                ("cap", PyVal.PInt 20);
                ("unit", PyVal.PStr "%")]);
             ("binary_size", PyVal.PDict [
                ("target", PyVal.PInt 0);
                ("cap", PyVal.PInt 10);
                ("unit", PyVal.PStr "%")]);
             ("memory_usage", PyVal.PDict [
                ("target", PyVal.PInt (-10));
                ("cap", PyVal.PInt 5);
                ("unit", PyVal.PStr "%")])])])])
].

Fixpoint lookup_config (name : string)
         (cs : list (string * list (string * PyVal.pyval)))
  : option (list (string * PyVal.pyval)) :=
  match cs with
  | [] => None
  | (n, c) :: cs' => if String.eqb n name then Some c else lookup_config name cs'
  end.

(** [d[key] = value] on a dictionary kept in insertion order: a key
    already there keeps its place. *)
Fixpoint dict_set (d : list (string * PyVal.pyval)) (key : string)
         (value : PyVal.pyval) : list (string * PyVal.pyval) :=
  match d with
  | [] => [(key, value)]
  | (k, v) :: d' =>
      if String.eqb k key then (k, value) :: d'
      else (k, v) :: dict_set d' key value
  end.

(** [d.update(items)] *)
Definition dict_update (d items : list (string * PyVal.pyval))
  : list (string * PyVal.pyval) :=
  fold_left (fun d kv => dict_set d (fst kv) (snd kv)) items d.

(** The exception of [PROJECT_TEMPLATES[project_type]] for a name that
    is not a key. *)
Inductive key_error : Type :=
| KeyError (key : string).

(** [path_name] is [project_path.name]; [custom_name] is [None] or a
    text. *)
Definition create_orchestrator_config (path_name : string)
           (project_type : string) (custom_name : option string)
  : key_error + list (string * PyVal.pyval) :=
  match lookup_config project_type CONFIGS with
  | None => inl (KeyError project_type)
  | Some template_config =>
      let config := template_config in
      inr (dict_update config [
        ("project_name",
         PyVal.PStr (match custom_name with
                     | Some name => if Py.truthy (Some name) then name
                                    else path_name
                     | None => path_name
                     end));
        ("project_type", PyVal.PStr project_type);
        ("orchestrator_version", PyVal.PStr "1.0.0");
        ("standards", PyVal.PDict [
           ("max_function_lines", PyVal.PInt 30);
           ("test_coverage", PyVal.PInt 80);
           ("security_level", PyVal.PStr "no-high");
           ("documentation_required", PyVal.PBool true)]);
        ("gates", PyVal.PDict [
           ("build", PyVal.PStr "All code compiles without errors");
           ("test", PyVal.PStr "All tests pass, coverage >= 80%");
           ("review",
            PyVal.PStr "Code follows standards, functions <= 30 lines");
           ("security",
            PyVal.PStr "No high severity issues, no hardcoded secrets");
           ("performance", PyVal.PStr "Metrics within acceptable bounds")])
      ])
  end.

(** A snapshot as a file system gives it: no name of an entry holds
    the separator. *)
Fixpoint plain_names (n : node) : bool :=
  match n with
  | File _ => true
  | Dir entries =>
      (fix all (es : list (string * node)) : bool :=
         match es with
         | [] => true
         | (name, child) :: es' =>
             negb (Py.contains "/" name) && plain_names child && all es'
         end) entries
  end.

End Init.

(** ** The metric gate evaluator *)

Module Evaluator.

Record MetricPolicy : Type := Policy {
  targetValue : Q;
  capValue : option Q;
  absolute : bool;
  unit : string
}.

(** Modelled from the spec: the evaluator of section 4.6.  Its code is
    not among the sources ([cli.py] imports the module [core], which
    holds the pipeline and is absent).  An absolute policy passes
    exactly when the measured value meets or exceeds the target.  For
    a relative policy the spec leaves the favourable direction to the
    metric, so that verdict is the parameter [relative]. *)
Definition evaluate (relative : Q -> MetricPolicy -> bool)
           (measuredValue : Q) (policy : MetricPolicy) : bool :=
  if absolute policy then Qle_bool (targetValue policy) measuredValue
  else relative measuredValue policy.

End Evaluator.

(** ** The registry as the specification words it *)

Module RegistrySpec.

Import Registry.

(** Exact match, ignoring case, against the known languages; then the
    substring rules in their order; then the default. *)
Definition resolve (languageName : string) : adapter_class :=
  let name := Py.lower languageName in
  if String.eqb name "python" then PythonAdapter
  else if String.eqb name "typescript" then TypeScriptAdapter
  else if String.eqb name "javascript" then TypeScriptAdapter
  else if String.eqb name "go" then GoAdapter
  else if String.eqb name "rust" then RustAdapter
  else if Py.contains "python" name then PythonAdapter
  else if Py.contains "typescript" name || Py.contains "javascript" name
          || Py.contains "node" name || Py.contains "react" name
  then TypeScriptAdapter
  else if Py.contains "go" name then GoAdapter
  else if Py.contains "rust" name then RustAdapter
  else PythonAdapter.

End RegistrySpec.

(** ** Counting keywords *)

Module ComplexitySpec.

(** The number of keywords of the set that occur in the line; a
    keyword counts once per line however often it occurs there. *)
Definition hits (keywords : list string) (line : string) : Z :=
  Z.of_nat (length (List.filter (fun keyword => Py.contains keyword line) keywords)).

Definition sum (xs : list Z) : Z := fold_right Z.add 0 xs.

(** Base score 1, plus the hits of every line. *)
Definition complexity (keywords : list string) (view : string -> string)
           (content : string) : Z :=
  1 + sum (map (fun line => hits keywords (view line)) (Py.split_lines content)).

(** The number of occurrences of the keyword in the line: the places
    of the line at which the keyword stands. *)
Fixpoint occurrences (keyword line : string) : Z :=
  (if String.prefix keyword line then 1 else 0)
  + match line with
    | EmptyString => 0
    | String _ line' => occurrences keyword line'
    end.

(** As the specification words it: base score 1, incremented once per
    occurrence of a keyword of the set, line by line. *)
Definition per_occurrence (keywords : list string) (content : string) : Z :=
  1 + sum (map (fun line =>
             sum (map (fun keyword => occurrences keyword line) keywords))
           (Py.split_lines content)).

End ComplexitySpec.

(** ** Well-shaped security reports *)

Module Report.

(** A result of the report that the loop over [results] can count: an
    object whose [test_id], when present, can be a dictionary key. *)
Definition keyed (result : PyVal.pyval) : bool :=
  match result with
  | PyVal.PDict d =>
      PyVal.hashable (PyVal.dict_get d "test_id" (PyVal.PStr "unknown"))
  | _ => false
  end.

End Report.

(** ** The language of an adapter *)

Module Adapters.

Import Registry.

(** Modelled from the spec: the [language] of an adapter.  The Python
    adapter's property is in the sources ([PythonAdapter.language]).
    The modules of the TypeScript, Go and Rust adapters are not among
    the sources; section 3 of the specification gives every adapter a
    [language] identifier, one adapter per supported language, and
    section 4.1 names the adapters by their language, so the
    identifier of each is taken to be the name of its language, as it
    is for the Python adapter. *)
Definition language (a : adapter_class) : string :=
  match a with
  | PythonAdapter => PythonAdapter.language
  | TypeScriptAdapter => "typescript"
  | GoAdapter => "go"
  | RustAdapter => "rust"
  end.

End Adapters.

(** ** Example inputs *)

Module Examples.

(** A project with [Cargo.toml] and [src/main.rs] and nothing else;
    [cargo] is the text of the manifest. *)
Definition rust_tree (cargo : string) : Init.node :=
  Init.Dir [
    ("Cargo.toml", Init.File (Return cargo));
    ("src", Init.Dir [("main.rs", Init.File (Return "fn main() {}"))])
  ].

Definition coverage_policy : Evaluator.MetricPolicy :=
  {| Evaluator.targetValue := 80;
     Evaluator.capValue := None;
     Evaluator.absolute := true;
     Evaluator.unit := "%" |}.

(** The report
    [{<q>metrics<q>: {<q>_totals<q>: {<q>SEVERITY.HIGH<q>: 1}}, <q>results<q>: null}],
    where [<q>] is the double quote, and the value it decodes to. *)
Definition quoted (s : string) : string :=
  String "034" (s +:+ String "034" EmptyString).

Definition null_results_output : string :=
  "{" +:+ quoted "metrics" +:+ ": {" +:+ quoted "_totals" +:+ ": {"
  +:+ quoted "SEVERITY.HIGH" +:+ ": 1}}, " +:+ quoted "results" +:+ ": null}".

Definition null_results_report : PyVal.pyval :=
  PyVal.PDict [
    ("metrics", PyVal.PDict [
       ("_totals", PyVal.PDict [("SEVERITY.HIGH", PyVal.PInt 1)])]);
    ("results", PyVal.PNone)
  ].

(** A report with one high, two medium and three low findings and two
    results, and the same report with no high finding. *)
Definition report (high : Z) : PyVal.pyval :=
  PyVal.PDict [
    ("metrics", PyVal.PDict [
       ("_totals", PyVal.PDict [
          ("SEVERITY.HIGH", PyVal.PInt high);
          ("SEVERITY.MEDIUM", PyVal.PInt 2);
          ("SEVERITY.LOW", PyVal.PInt 3)])]);
    ("results", PyVal.PList [
       PyVal.PDict [("test_id", PyVal.PStr "B101")];
       PyVal.PDict [("issue_text", PyVal.PStr "assert used")]])
  ].

(** A rule of [n] signs [=], as pytest draws around its summary. *)
Fixpoint rule (n : nat) : string :=
  match n with
  | O => EmptyString
  | S n' => String "=" (rule n')
  end.

(** The summary of 2 failed and 5 passed tests as pytest prints it:
    after a rule of [S n] signs [=] and the white space [gap], and
    followed by [post]. *)
Definition summary (n : nat) (gap post : string) : string :=
  rule (S n) +:+ gap +:+ "2 failed, 5 passed in 1.23s" +:+ post.

End Examples.

(** * Properties *)

Example lower_ex : Py.lower "PyThon3" = "python3".
Proof. reflexivity. Qed.

Example split_ex : Py.split_lines (String "a" (String "010" (String "010" "b"))) = ["a"; ""; "b"].
Proof. reflexivity. Qed.

Example strip_ex : Py.strip "  a b  " = "a b".
Proof. reflexivity. Qed.

Example reg_ex1 : Registry.get_language_adapter "Django" = Registry.GoAdapter.
Proof. vm_compute. reflexivity. Qed.

Example reg_ex2 : Registry.get_language_adapter "JavaScript" = Registry.TypeScriptAdapter.
Proof. vm_compute. reflexivity. Qed.

Example re_cov_ex :
  Re.search (Re.Cat (Re.Grp 1 (Re.plus Py.is_digit)) (Re.chr "%")) "TOTAL 100 20 80%"
  = Some [(0%nat, "80%"); (1%nat, "80")].
Proof. reflexivity. Qed.

Example utf8_ex : "✓" = String "226" (String "156" (String "147" "")).
Proof. reflexivity. Qed.

Example py_test_ex :
  PythonAdapter.parse_test_output
    "t.py::a PASSED
t.py::b FAILED
TOTAL 10 2 80%
=== 2 failed, 5 passed in 1.23s ==="
  = {| PythonAdapter.passed := 5; PythonAdapter.failed := 2;
       PythonAdapter.skipped := 0; PythonAdapter.total := 7;
       PythonAdapter.coverage := Some 80; PythonAdapter.success := false;
       PythonAdapter.status := "FAIL" |}.
Proof. vm_compute. reflexivity. Qed.

(** ** The registry *)

(** C1.  The registry's resolve operation is total and follows the
    specification: an exact match, ignoring case, against the known
    languages; otherwise "python", then any of "typescript",
    "javascript", "node", "react", then "go", then "rust", looked for as
    substrings in that order; otherwise the Python adapter. *)
Theorem get_language_adapter_resolve (language : string) :
  Registry.get_language_adapter language = RegistrySpec.resolve language.
Proof.
  unfold Registry.get_language_adapter, RegistrySpec.resolve.
  generalize (Py.lower language) as name; intros name.
  destruct (String.eqb_spec name "python") as [-> | Hpy]; [reflexivity |].
  destruct (String.eqb_spec name "typescript") as [-> | Hts]; [reflexivity |].
  destruct (String.eqb_spec name "javascript") as [-> | Hjs]; [reflexivity |].
  destruct (String.eqb_spec name "go") as [-> | Hgo]; [reflexivity |].
  destruct (String.eqb_spec name "rust") as [-> | Hrs]; [reflexivity |].
  unfold Registry.ADAPTERS.
  rewrite !lookup_insert_ne by congruence.
  rewrite lookup_empty. cbn [existsb].
  rewrite orb_false_r, !orb_assoc. reflexivity.
Qed.

(** ** The static heuristics *)

Lemma hits_fold (line : string) (keywords : list string) (complexity : Z) :
  fold_left (fun complexity keyword =>
    if Py.contains keyword line then complexity + 1 else complexity)
    keywords complexity
  = complexity + ComplexitySpec.hits keywords line.
Proof.
  unfold ComplexitySpec.hits.
  revert complexity; induction keywords as [| keyword keywords IH];
    intros complexity; cbn [fold_left List.filter].
  - cbn. lia.
  - rewrite IH. destruct (Py.contains keyword line); simpl length;
      rewrite ?Nat2Z.inj_succ; lia.
Qed.

Lemma sum_fold (h : string -> Z) (lines : list string) (complexity : Z) :
  fold_left (fun complexity line => complexity + h line) lines complexity
  = complexity + ComplexitySpec.sum (map h lines).
Proof.
  revert complexity; induction lines as [| line lines IH];
    intros complexity; cbn [fold_left map ComplexitySpec.sum fold_right].
  - lia.
  - rewrite IH. unfold ComplexitySpec.sum. lia.
Qed.

Lemma fold_left_ext {A B} (f g : A -> B -> A) (l : list B) (a : A) :
  (forall a b, f a b = g a b) -> fold_left f l a = fold_left g l a.
Proof.
  intros Hfg; revert a; induction l as [| b l IH]; intros a; cbn.
  - reflexivity.
  - rewrite Hfg. apply IH.
Qed.

(** A line on which a keyword occurs twice: the code counts the
    keyword once, so the estimate is 3 where counting every occurrence
    gives 4. *)
Lemma keyword_counts_once_per_line :
  BaseAdapter.estimate_complexity (Return "if a: b = c if d else e") = 3
  /\ ComplexitySpec.per_occurrence BaseAdapter.complexity_keywords
       "if a: b = c if d else e" = 4.
Proof. split; vm_compute; reflexivity. Qed.

(** C8.  For a file that can be read, the complexity estimate is the
    base score 1 plus, for every line, the number of keywords of the
    fixed set that occur in the line, a keyword counting once per line
    however often it occurs there.  The generic adapter looks for if,
    elif, else, for, while, try, except, switch, case in the line; the
    Python adapter looks for the keywords of its own set in the line
    stripped of the white space around it. *)
Theorem estimate_complexity_counts (content : string) :
  BaseAdapter.estimate_complexity (Return content)
  = ComplexitySpec.complexity
      ["if"; "elif"; "else"; "for"; "while"; "try"; "except"; "switch"; "case"]
      (fun line => line) content
  /\ PythonAdapter.estimate_complexity (Return content)
     = ComplexitySpec.complexity PythonAdapter.complexity_keywords
         Py.strip content.
Proof.
  unfold BaseAdapter.estimate_complexity, PythonAdapter.estimate_complexity,
    ComplexitySpec.complexity.
  split.
  - rewrite <- sum_fold. apply fold_left_ext. intros c line. apply hits_fold.
  - rewrite <- sum_fold. apply fold_left_ext. intros c line. apply hits_fold.
Qed.

(** C10.  When the text of the file cannot be read, whatever the
    exception, [estimate_complexity] and [get_function_count] return 0,
    in the generic adapter and in the Python adapter. *)
Theorem unreadable_file_gives_zero (e : exn) :
  BaseAdapter.estimate_complexity (Raise e) = 0
  /\ BaseAdapter.get_function_count (Raise e) = 0
  /\ PythonAdapter.estimate_complexity (Raise e) = 0
  /\ PythonAdapter.get_function_count (Raise e) = 0.
Proof. repeat split. Qed.

(** ** The Python test parser *)

(** C9.  Whether or not the summary line matches, the skipped count
    and the coverage of the result are those of the scan of the lines;
    the summary replaces the passed and failed counts only. *)
Theorem summary_keeps_skipped_and_coverage (output : string) :
  PythonAdapter.skipped (PythonAdapter.parse_test_output output)
  = PythonAdapter.t_skipped (PythonAdapter.scan (Py.split_lines output))
  /\ PythonAdapter.coverage (PythonAdapter.parse_test_output output)
     = PythonAdapter.t_coverage (PythonAdapter.scan (Py.split_lines output)).
Proof.
  unfold PythonAdapter.parse_test_output.
  destruct (Re.search PythonAdapter.summary_pattern output); split; reflexivity.
Qed.

(** ** The classifier *)

(** C3.  On a project made of [Cargo.toml] and [src/main.rs], with no
    keyword in the manifest, the walk collects the names [Cargo.toml]
    and [main.rs]; the indicator [src/main.rs] is not among them, so the
    Rust template scores 3, not 6.  The project is still classified as
    the Rust template.  With the keyword "tokio" in the manifest the
    score is 8, not 11. *)
Theorem rust_project_scores :
  Init.scores "/work/demo" (Examples.rust_tree "[package]")
  = [("python_ml", 0); ("python_api", 0); ("typescript_node", 0);
     ("react_frontend", 0); ("go_service", 0); ("rust_project", 3)]
  /\ Init.detect_project_type "/work/demo" (Examples.rust_tree "[package]")
     = "rust_project"
  /\ Init.scores "/work/demo" (Examples.rust_tree "[dependencies] tokio = 1")
     = [("python_ml", 0); ("python_api", 0); ("typescript_node", 0);
        ("react_frontend", 0); ("go_service", 0); ("rust_project", 8)].
Proof. split; [| split]; vm_compute; reflexivity. Qed.

Lemma max_key_in (first : string * Z) (rest : list (string * Z)) :
  In (Init.max_key first rest) (map fst (first :: rest)).
Proof.
  unfold Init.max_key. revert first.
  induction rest as [| x rest IH]; intros first; cbn [fold_left map].
  - left; reflexivity.
  - destruct (snd first <? snd x)%Z.
    + right. apply (IH x).
    + destruct (IH first) as [H | H]; [left; exact H | right; right; exact H].
Qed.

Lemma scores_keys (project_path : string) (tree : Init.node) :
  map fst (Init.scores project_path tree) = map fst Init.PROJECT_TEMPLATES.
Proof. unfold Init.scores. rewrite map_map. reflexivity. Qed.

(** The classifier answers with the name of a template of the catalogue. *)
Lemma detect_project_type_in_catalogue (project_path : string)
      (tree : Init.node) :
  In (Init.detect_project_type project_path tree)
     (map fst Init.PROJECT_TEMPLATES).
Proof.
  unfold Init.detect_project_type.
  pose proof (scores_keys project_path tree) as Hkeys.
  destruct (Init.scores project_path tree) as [| first rest].
  - cbn. tauto.
  - destruct (0 <? Init.max_value first rest)%Z.
    + rewrite <- Hkeys. apply max_key_in.
    + cbn. tauto.
Qed.


(** ** The evaluator *)

(** C6.  A policy with [absolute] set passes exactly when the measured
    value meets or exceeds the target; with target 80, the value 85
    passes and the value 79.9 fails. *)
Theorem evaluate_absolute (relative : Q -> Evaluator.MetricPolicy -> bool)
        (measuredValue : Q) (policy : Evaluator.MetricPolicy) :
  Evaluator.absolute policy = true ->
  (Evaluator.evaluate relative measuredValue policy = true
   <-> (Evaluator.targetValue policy <= measuredValue)%Q)
  /\ Evaluator.evaluate relative 85 Examples.coverage_policy = true
  /\ Evaluator.evaluate relative (799 # 10) Examples.coverage_policy = false.
Proof.
  intros Habs. unfold Evaluator.evaluate. rewrite Habs.
  split; [apply Qle_bool_iff | split; reflexivity].
Qed.

Lemma evaluate_absolute_witness :
  (Evaluator.evaluate (fun _ _ => false) 85 Examples.coverage_policy = true
   <-> (Evaluator.targetValue Examples.coverage_policy <= 85)%Q)
  /\ Evaluator.evaluate (fun _ _ => false) 85 Examples.coverage_policy = true
  /\ Evaluator.evaluate (fun _ _ => false) (799 # 10) Examples.coverage_policy
     = false.
Proof.
  apply (evaluate_absolute (fun _ _ => false) 85 Examples.coverage_policy).
  reflexivity.
Defined.

(** ** The Python security parser *)

Lemma count_results_keyed (results : list PyVal.pyval)
      (issues_by_type : list (PyVal.pyval * Z)) :
  forallb Report.keyed results = true ->
  exists counted,
    PythonAdapter.count_results results issues_by_type = Return counted.
Proof.
  revert issues_by_type.
  induction results as [| result results IH]; intros issues_by_type Hall.
  - eexists. reflexivity.
  - cbn [forallb] in Hall. apply andb_prop in Hall as [Hkey Hall].
    destruct result as [| | | | | | d]; try discriminate Hkey.
    cbn [PythonAdapter.count_results PyVal.get].
    unfold mbind, exc_bind, PyVal.count_key.
    cbn [Report.keyed] in Hkey. rewrite Hkey.
    apply IH. exact Hall.
Qed.

(** C5.  The Python security parser is not total: on the output [[]],
    which is valid JSON and decodes to the empty list, the call
    [bandit_data.get] raises [AttributeError], and the handler, which
    catches [JSONDecodeError] only, lets it through. *)
Theorem security_parser_raises_on_array
        (json_loads : string -> exc PyVal.pyval) :
  json_loads "[]" = Return (PyVal.PList []) ->
  PythonAdapter.parse_security_output json_loads "[]" = Raise AttributeError.
Proof.
  intros Hloads.
  unfold PythonAdapter.parse_security_output, PythonAdapter.parse_report.
  rewrite Hloads. reflexivity.
Qed.

Lemma security_parser_raises_on_array_witness :
  PythonAdapter.parse_security_output
    (fun _ => Return (PyVal.PList [])) "[]" = Raise AttributeError.
Proof.
  apply (security_parser_raises_on_array (fun _ => Return (PyVal.PList []))).
  reflexivity.
Defined.

(** C4.  The Python security parser does not return [success] false
    for every valid report with [SEVERITY.HIGH] equal to 1: on the
    report whose [results] is [null] the loop over the results raises
    [TypeError], which the handler, catching [JSONDecodeError] only,
    lets through, so no result is returned. *)
Theorem security_parser_raises_on_null_results
        (json_loads : string -> exc PyVal.pyval) (output : string) :
  json_loads output = Return Examples.null_results_report ->
  PythonAdapter.parse_security_output json_loads output = Raise TypeError.
Proof.
  intros Hloads.
  unfold PythonAdapter.parse_security_output, PythonAdapter.parse_report.
  rewrite Hloads. reflexivity.
Qed.

Lemma security_parser_raises_on_null_results_witness :
  PythonAdapter.parse_security_output
    (fun _ => Return Examples.null_results_report)
    Examples.null_results_output
  = Raise TypeError.
Proof.
  apply (security_parser_raises_on_null_results
           (fun _ => Return Examples.null_results_report)
           Examples.null_results_output).
  reflexivity.
Defined.

(** For an output that decodes to an object whose totals hold integers
    for the three severities (the default 0 standing for an absent
    one) and whose results, when present, are a list of objects with a
    [test_id] that can be a key, the parser returns a result whose
    success is false when [SEVERITY.HIGH] is 1 and true when it is 0,
    whatever the medium and low counts. *)
Theorem security_success_by_high
        (json_loads : string -> exc PyVal.pyval) (output : string)
        (top metrics totals : list (string * PyVal.pyval))
        (h m l : Z) (results : list PyVal.pyval) :
  json_loads output = Return (PyVal.PDict top) ->
  PyVal.dict_get top "metrics" (PyVal.PDict []) = PyVal.PDict metrics ->
  PyVal.dict_get metrics "_totals" (PyVal.PDict []) = PyVal.PDict totals ->
  PyVal.dict_get totals "SEVERITY.HIGH" (PyVal.PInt 0) = PyVal.PInt h ->
  PyVal.dict_get totals "SEVERITY.MEDIUM" (PyVal.PInt 0) = PyVal.PInt m ->
  PyVal.dict_get totals "SEVERITY.LOW" (PyVal.PInt 0) = PyVal.PInt l ->
  PyVal.dict_get top "results" (PyVal.PList []) = PyVal.PList results ->
  forallb Report.keyed results = true ->
  exists r,
    PythonAdapter.parse_security_output json_loads output
    = Return (PythonAdapter.FromJson r)
    /\ PythonAdapter.security_success r = Z.eqb h 0
    /\ (h = 1 -> PythonAdapter.security_success r = false)
    /\ (h = 0 -> PythonAdapter.security_success r = true)
    /\ PythonAdapter.total_issues r = PyVal.PInt (h + m + l).
Proof.
  intros Hloads Hmetrics Htotals Hhigh Hmedium Hlow Hresults Hkeyed.
  destruct (count_results_keyed results [] Hkeyed) as [counted Hcounted].
  unfold PythonAdapter.parse_security_output, PythonAdapter.parse_report.
  rewrite Hloads. unfold mbind, exc_bind. cbn [PyVal.get].
  rewrite Hmetrics. cbn [PyVal.get].
  rewrite Htotals. cbn [PyVal.get].
  rewrite Hhigh, Hmedium, Hlow, Hresults.
  cbn [PyVal.iter]. rewrite Hcounted.
  cbn [PyVal.add PyVal.as_int].
  eexists. split; [reflexivity |].
  cbn [PythonAdapter.security_success PythonAdapter.total_issues
       PyVal.eq_int PyVal.as_int].
  repeat split; intros ->; reflexivity.
Qed.

Lemma security_success_by_high_witness :
  (exists r,
    PythonAdapter.parse_security_output
      (fun _ => Return (Examples.report 1)) "report"
    = Return (PythonAdapter.FromJson r)
    /\ PythonAdapter.security_success r = false)
  /\ (exists r,
    PythonAdapter.parse_security_output
      (fun _ => Return (Examples.report 0)) "report"
    = Return (PythonAdapter.FromJson r)
    /\ PythonAdapter.security_success r = true).
Proof.
  split.
  - destruct (security_success_by_high
                (fun _ => Return (Examples.report 1)) "report"
                _ _ _ 1 2 3 _
                eq_refl eq_refl eq_refl eq_refl eq_refl eq_refl eq_refl
                eq_refl) as [r [Hr [Hs _]]].
    exists r. split; [exact Hr | exact Hs].
  - destruct (security_success_by_high
                (fun _ => Return (Examples.report 0)) "report"
                _ _ _ 0 2 3 _
                eq_refl eq_refl eq_refl eq_refl eq_refl eq_refl eq_refl
                eq_refl) as [r [Hr [Hs _]]].
    exists r. split; [exact Hr | exact Hs].
Defined.

(** ** Characters *)

Lemma ascii_not_continuation (c : ascii) :
  Py.is_ascii c = true -> Py.continuation c = false.
Proof.
  unfold Py.is_ascii, Py.continuation, Py.in_range. intros Hc.
  apply N.ltb_lt in Hc. apply andb_false_iff. left. apply N.leb_gt. lia.
Qed.

(** An ASCII byte is a character of its own. *)
Lemma chars_cons_ascii (c : ascii) (s : string) :
  Py.is_ascii c = true ->
  Py.chars (String c s) = String c EmptyString :: Py.chars s.
Proof.
  intros Hc. cbn [Py.chars]. rewrite Hc. cbn [negb andb].
  destruct (Py.chars s); reflexivity.
Qed.

(** A text that starts with an ASCII byte starts a character. *)
Lemma chars_app (pre : string) (c : ascii) (s : string) :
  Py.is_ascii c = true ->
  Py.chars (pre +:+ String c s)
  = (Py.chars pre ++ Py.chars (String c s))%list.
Proof.
  intros Hc. induction pre as [| d pre IH].
  - reflexivity.
  - change (String d pre +:+ String c s) with (String d (pre +:+ String c s)).
    rewrite (chars_cons_ascii c s Hc) in *.
    cbn [Py.chars]. rewrite IH.
    destruct (Py.chars pre) as [| ch chs]; cbn [app].
    + cbn [Py.continues]. rewrite (ascii_not_continuation c Hc).
      rewrite andb_false_r. reflexivity.
    + destruct (negb (Py.is_ascii d) && Py.continues ch); reflexivity.
Qed.

Lemma chars_ascii (a s : string) :
  forallb Py.is_ascii (list_ascii_of_string a) = true ->
  Py.chars (a +:+ s)
  = (map (fun c => String c EmptyString) (list_ascii_of_string a)
     ++ Py.chars s)%list.
Proof.
  induction a as [| c a IH]; intros Hascii.
  - reflexivity.
  - cbn [list_ascii_of_string forallb] in Hascii.
    apply andb_prop in Hascii as [Hc Hascii].
    change (String c a +:+ s) with (String c (a +:+ s)).
    rewrite (chars_cons_ascii c _ Hc), (IH Hascii). reflexivity.
Qed.

Lemma chars_rule (n : nat) (s : string) :
  Py.chars (Examples.rule n +:+ s) = (repeat "=" n ++ Py.chars s)%list.
Proof.
  induction n as [| n IH].
  - reflexivity.
  - change (Examples.rule (S n) +:+ s)
      with (String "=" (Examples.rule n +:+ s)).
    rewrite chars_cons_ascii by reflexivity. rewrite IH. reflexivity.
Qed.

(** ** The summary line of the Python test parser *)

(** The summary pattern matches only where a sign [=] stands. *)
Lemma summary_needs_rule (ch : string) (rest : list string) :
  String.eqb "=" ch = false ->
  Re.match_here PythonAdapter.summary_pattern (ch :: rest) = None.
Proof.
  intros Hch. unfold Re.match_here, PythonAdapter.summary_pattern, Re.seq.
  cbn [fold_right Re.rmatch Re.plus]. rewrite Hch. reflexivity.
Qed.

(** With no match starting in [pre], the search goes on after it. *)
Lemma search_after (r : Re.regex) (pre tail : list string) :
  Re.starts_within r pre tail = false ->
  Re.search_chars r (pre ++ tail) = Re.search_chars r tail.
Proof.
  induction pre as [| ch pre IH]; intros Hnone.
  - reflexivity.
  - cbn [Re.starts_within] in Hnone.
    change ((ch :: pre) ++ tail)%list with (ch :: pre ++ tail)%list in *.
    cbn [Re.search_chars].
    destruct (Re.match_here r (ch :: pre ++ tail)); [discriminate Hnone |].
    apply IH. exact Hnone.
Qed.

Lemma search_here (r : Re.regex) (s : list string) (caps : Re.captures) :
  Re.match_here r s = Some caps -> Re.search_chars r s = Some caps.
Proof.
  intros Hhere. destruct s; cbn [Re.search_chars]; rewrite Hhere; reflexivity.
Qed.

(** A greedy repetition takes a whole run of the class when the rest
    of the pattern matches after it. *)
Lemma star_greedy_run {R} (p : string -> bool)
      (k : string -> list string -> option R) (run rest : list string)
      (x : R) :
  forallb p run = true ->
  (forall ch tail, rest = ch :: tail -> p ch = false) ->
  k (Py.join run) rest = Some x ->
  Re.star_greedy p k (run ++ rest) = Some x.
Proof.
  intros Hrun Hrest. revert k. induction run as [| c run IH]; intros k Hk.
  - cbn [app]. destruct rest as [| ch tail]; cbn [Re.star_greedy].
    + exact Hk.
    + rewrite (Hrest ch tail eq_refl). exact Hk.
  - cbn [forallb] in Hrun. apply andb_prop in Hrun as [Hc Hrun].
    cbn [app Re.star_greedy]. rewrite Hc.
    rewrite (IH Hrun (fun m rest => k (c +:+ m) rest) Hk). reflexivity.
Qed.

Lemma repeat_sign (n : nat) : forallb (String.eqb "=") (repeat "=" n) = true.
Proof. induction n as [| n IH]; [reflexivity | exact IH]. Qed.

Lemma space_not_sign (ch : string) :
  Py.is_space ch = true -> String.eqb "=" ch = false.
Proof.
  intros Hspace. destruct (String.eqb_spec "=" ch) as [<- | Hne];
    [discriminate Hspace | reflexivity].
Qed.

(** At the rule the pattern matches, and its groups are 2 and 5. *)
Lemma summary_here (n : nat) (gap post : string) :
  forallb Py.is_space (Py.chars gap) = true ->
  exists caps,
    Re.match_here PythonAdapter.summary_pattern
      (Py.chars (Examples.summary n gap post)) = Some caps
    /\ Re.group 1 caps = "2" /\ Re.group 2 caps = "5".
Proof.
  intros Hgap. unfold Examples.summary.
  rewrite chars_rule.
  change ("2 failed, 5 passed in 1.23s" +:+ post)
    with (String "2" (" failed, 5 passed in 1.23s" +:+ post)).
  rewrite (chars_app gap "2" _ eq_refl).
  rewrite (chars_cons_ascii "2" _ eq_refl).
  set (rest := (Py.chars gap
                ++ "2" :: Py.chars (" failed, 5 passed in 1.23s" +:+ post))%list).
  cbn [repeat app].
  unfold Re.match_here, PythonAdapter.summary_pattern, Re.seq.
  cbn [fold_right Re.rmatch Re.plus].
  rewrite String.eqb_refl.
  eexists. split.
  - apply star_greedy_run.
    + apply repeat_sign.
    + subst rest. intros ch tail Hhead.
      destruct (Py.chars gap) as [| g gs]; cbn [app] in Hhead;
        injection Hhead as <- _; [reflexivity |].
      cbn [forallb] in Hgap. apply andb_prop in Hgap as [Hg _].
      apply space_not_sign. exact Hg.
    + subst rest. apply star_greedy_run.
      * exact Hgap.
      * intros ch tail Hhead. injection Hhead as <- _. reflexivity.
      * rewrite (chars_ascii " failed, 5 passed in 1.23s" post eq_refl).
        cbv. reflexivity.
  - split; reflexivity.
Qed.

(** Under the limit a line whose coverage figure fits is scanned as
    without the limit. *)
Lemma scan_line_fits (max_str_digits : Z) (t : PythonAdapter.tally)
      (line : string) :
  PythonAdapter.coverage_fits max_str_digits line = true ->
  PythonAdapter.scan_line_with max_str_digits t line
  = Return (PythonAdapter.scan_line t line).
Proof.
  unfold PythonAdapter.coverage_fits, PythonAdapter.scan_line_with,
    PythonAdapter.scan_line, PythonAdapter.int_limited.
  intros Hfits.
  destruct (Py.contains "TOTAL" line && Py.contains "%" line);
    [| reflexivity].
  destruct (Re.search PythonAdapter.coverage_pattern line)
    as [coverage_match |]; [| reflexivity].
  apply negb_true_iff in Hfits. rewrite Hfits. reflexivity.
Qed.

Lemma scan_fits (max_str_digits : Z) (lines : list string) :
  forallb (PythonAdapter.coverage_fits max_str_digits) lines = true ->
  PythonAdapter.scan_with max_str_digits lines
  = Return (PythonAdapter.scan lines).
Proof.
  unfold PythonAdapter.scan_with, PythonAdapter.scan.
  generalize ({| PythonAdapter.t_passed := 0; PythonAdapter.t_failed := 0;
                 PythonAdapter.t_skipped := 0;
                 PythonAdapter.t_coverage := None |}) as t.
  induction lines as [| line lines IH]; intros t Hfits.
  - reflexivity.
  - cbn [forallb] in Hfits. apply andb_prop in Hfits as [Hline Hfits].
    cbn [fold_left]. unfold mbind at 2, exc_bind at 2.
    rewrite (scan_line_fits max_str_digits t line Hline).
    apply IH. exact Hfits.
Qed.

(** A run of one digit is within every limit. *)
Lemma int_limited_digit (max_str_digits : Z) (c : ascii) :
  Py.is_ascii c = true ->
  PythonAdapter.int_limited max_str_digits (String c EmptyString)
  = Return (Py.int (String c EmptyString)).
Proof.
  intros Hc. unfold PythonAdapter.int_limited, Py.len.
  rewrite (chars_cons_ascii c EmptyString Hc). cbn [Py.chars length].
  destruct (0 <? max_str_digits)%Z eqn:Hpos; [| reflexivity].
  apply Z.ltb_lt in Hpos.
  assert (Hle : (max_str_digits <? Z.of_nat 1)%Z = false)
    by (apply Z.ltb_ge; lia).
  rewrite Hle. reflexivity.
Qed.

(** Without a limit the parser is [parse_test_output]. *)
Lemma parse_test_output_without_limit (output : string) :
  PythonAdapter.parse_test_output_with 0 output
  = Return (PythonAdapter.parse_test_output output).
Proof.
  unfold PythonAdapter.parse_test_output_with,
    PythonAdapter.parse_test_output.
  rewrite scan_fits.
  - unfold mbind, exc_bind, PythonAdapter.int_limited. cbn [Z.ltb Z.compare andb].
    destruct (Re.search PythonAdapter.summary_pattern output); reflexivity.
  - apply forallb_forall. intros line _.
    unfold PythonAdapter.coverage_fits.
    destruct (Py.contains "TOTAL" line && Py.contains "%" line);
      [| reflexivity].
    destruct (Re.search PythonAdapter.coverage_pattern line); reflexivity.
Qed.

(** The summary line alone, without the rule of signs [=] that pytest
    draws before it, is not recognised: the result has no failed and no
    passed test, with the limit of the interpreter and without it. *)
Lemma bare_summary_line_ignored :
  PythonAdapter.failed
    (PythonAdapter.parse_test_output "2 failed, 5 passed in 1.23s") = 0
  /\ PythonAdapter.passed
       (PythonAdapter.parse_test_output "2 failed, 5 passed in 1.23s") = 0
  /\ PythonAdapter.parse_test_output_with PythonAdapter.default_max_str_digits
       "2 failed, 5 passed in 1.23s"
     = Return {| PythonAdapter.passed := 0; PythonAdapter.failed := 0;
                 PythonAdapter.skipped := 0; PythonAdapter.total := 0;
                 PythonAdapter.coverage := None;
                 PythonAdapter.success := true;
                 PythonAdapter.status := "PASS" |}.
Proof. repeat split; vm_compute; reflexivity. Qed.

(** C2.  When the summary [2 failed, 5 passed in 1.23s] comes after a
    rule of one or more signs [=] and any white space, no match of the
    summary pattern starts before that rule, and the coverage figure
    of every [TOTAL] line is within the limit of the interpreter on
    integer conversions, the parser returns a result with failed 2
    and passed 5, whatever the lines before and after say. *)
Theorem summary_line_overrides (max_str_digits : Z) (pre : string)
        (n : nat) (gap post : string) :
  forallb Py.is_space (Py.chars gap) = true ->
  Re.matches_before PythonAdapter.summary_pattern pre
    (Examples.summary n gap post) = false ->
  forallb (PythonAdapter.coverage_fits max_str_digits)
    (Py.split_lines (pre +:+ Examples.summary n gap post)) = true ->
  exists r,
    PythonAdapter.parse_test_output_with max_str_digits
      (pre +:+ Examples.summary n gap post) = Return r
    /\ PythonAdapter.failed r = 2
    /\ PythonAdapter.passed r = 5.
Proof.
  intros Hgap Hbefore Hfits.
  destruct (summary_here n gap post Hgap) as [caps [Hhere [Hfailed Hpassed]]].
  assert (Hsearch :
    Re.search PythonAdapter.summary_pattern
      (pre +:+ Examples.summary n gap post) = Some caps).
  { unfold Re.search.
    assert (Hchars :
      Py.chars (pre +:+ Examples.summary n gap post)
      = (Py.chars pre ++ Py.chars (Examples.summary n gap post))%list).
    { unfold Examples.summary.
      change (Examples.rule (S n) +:+ gap
              +:+ "2 failed, 5 passed in 1.23s" +:+ post)
        with (String "=" (Examples.rule n +:+ gap
                          +:+ "2 failed, 5 passed in 1.23s" +:+ post)).
      apply chars_app. reflexivity. }
    rewrite Hchars. rewrite (search_after _ _ _ Hbefore).
    apply search_here. exact Hhere. }
  unfold PythonAdapter.parse_test_output_with.
  rewrite (scan_fits _ _ Hfits), Hsearch, Hfailed, Hpassed.
  unfold mbind, exc_bind.
  rewrite (int_limited_digit max_str_digits "2" eq_refl).
  rewrite (int_limited_digit max_str_digits "5" eq_refl).
  eexists. split; [reflexivity | split; reflexivity].
Qed.

Lemma summary_line_overrides_witness :
  exists r,
    PythonAdapter.parse_test_output_with 4300
      "=== test session starts ===
t.py::a PASSED
TOTAL 10 2 80%
=== 2 failed, 5 passed in 1.23s ===" = Return r
    /\ PythonAdapter.failed r = 2
    /\ PythonAdapter.passed r = 5.
Proof.
  apply (summary_line_overrides 4300 "=== test session starts ===
t.py::a PASSED
TOTAL 10 2 80%
" 2 " " " ==="); vm_compute; reflexivity.
Defined.

(** * Further properties *)

(** ** The registry: letter case and the order of the rules *)

Lemma lower_char_idempotent (c : ascii) :
  Py.lower_char (Py.lower_char c) = Py.lower_char c.
Proof. destruct c as [[] [] [] [] [] [] [] []]; reflexivity. Qed.

Lemma lower_idempotent (s : string) : Py.lower (Py.lower s) = Py.lower s.
Proof.
  induction s as [| c s IH]; cbn [Py.lower].
  - reflexivity.
  - rewrite lower_char_idempotent, IH. reflexivity.
Qed.

(** X1.  Resolution ignores letter case: a name and its lower-case
    form resolve to the same adapter. *)
Theorem get_language_adapter_ignores_case (language : string) :
  Registry.get_language_adapter (Py.lower language)
  = Registry.get_language_adapter language.
Proof.
  unfold Registry.get_language_adapter.
  rewrite lower_idempotent. reflexivity.
Qed.

(** X2.  A name that contains "python", in any letter case, resolves
    to the Python adapter, whatever else it contains. *)
Theorem python_rule_comes_first (language : string) :
  Py.contains "python" (Py.lower language) = true ->
  Registry.get_language_adapter language = Registry.PythonAdapter.
Proof.
  unfold Registry.get_language_adapter.
  generalize (Py.lower language) as name; intros name Hpy.
  destruct (String.eqb_spec name "python") as [-> | Hn1]; [reflexivity |].
  destruct (String.eqb_spec name "typescript") as [-> | Hn2]; [discriminate Hpy |].
  destruct (String.eqb_spec name "javascript") as [-> | Hn3]; [discriminate Hpy |].
  destruct (String.eqb_spec name "go") as [-> | Hn4]; [discriminate Hpy |].
  destruct (String.eqb_spec name "rust") as [-> | Hn5]; [discriminate Hpy |].
  unfold Registry.ADAPTERS.
  rewrite !lookup_insert_ne by congruence.
  rewrite lookup_empty, Hpy. reflexivity.
Qed.

Lemma python_rule_comes_first_witness :
  Registry.get_language_adapter "Rust-to-Python bridge" = Registry.PythonAdapter.
Proof. apply python_rule_comes_first. reflexivity. Defined.

(** ** The generic parsers *)

Lemma count_if_acc {A} (p : A -> bool) (xs : list A) (n : Z) :
  n <= fold_left (fun n x => if p x then n + 1 else n) xs n
    <= n + Z.of_nat (length xs).
Proof.
  revert n. induction xs as [| x xs IH]; intros n.
  - cbn [fold_left length]. lia.
  - cbn [fold_left length]. rewrite Nat2Z.inj_succ.
    destruct (p x).
    + specialize (IH (n + 1)). lia.
    + specialize (IH n). lia.
Qed.

Lemma count_if_bounds {A} (p : A -> bool) (xs : list A) :
  0 <= Py.count_if p xs <= Z.of_nat (length xs).
Proof. unfold Py.count_if. apply (count_if_acc p xs 0). Qed.

Lemma is_newline_eqb (c : ascii) : Py.is_newline c = Ascii.eqb c "010".
Proof. destruct c as [[] [] [] [] [] [] [] []]; reflexivity. Qed.

Lemma count_char_nonneg (sep : ascii) (s : string) :
  0 <= Py.count_char sep s.
Proof.
  induction s as [| c s IH]; cbn [Py.count_char]; [lia |].
  destruct (Ascii.eqb c sep); lia.
Qed.

(** [len(s.split('\n')) == s.count('\n') + 1] *)
Lemma split_lines_length (s : string) :
  Z.of_nat (length (Py.split_lines s)) = Py.count_char "010" s + 1.
Proof.
  induction s as [| c s IH].
  - reflexivity.
  - pose proof (count_char_nonneg "010" s) as Hpos.
    cbn [Py.split_lines Py.count_char]. rewrite is_newline_eqb.
    destruct (Ascii.eqb c "010").
    + cbn [length]. rewrite Nat2Z.inj_succ. lia.
    + destruct (Py.split_lines s) as [| l ls]; cbn [length] in *; lia.
Qed.

(** X3.  The generic parsers are total and their counts are bounded:
    each count lies between 0 and the number of lines of the output,
    the total is the sum of the counts, and success holds exactly when
    the failed, error or high count is 0. *)
Theorem generic_parsers_bounded (output : string) :
  let lines := Py.count_char "010" output + 1 in
  let t := BaseAdapter.parse_test_output output in
  let l := BaseAdapter.parse_lint_output output in
  let s := BaseAdapter.parse_security_output output in
  (0 <= BaseAdapter.passed t <= lines
   /\ 0 <= BaseAdapter.failed t <= lines
   /\ BaseAdapter.total t = BaseAdapter.passed t + BaseAdapter.failed t
   /\ (BaseAdapter.success t = true <-> BaseAdapter.failed t = 0))
  /\ (0 <= BaseAdapter.errors l <= lines
      /\ 0 <= BaseAdapter.warnings l <= lines
      /\ BaseAdapter.lint_total_issues l
         = BaseAdapter.errors l + BaseAdapter.warnings l
      /\ (BaseAdapter.lint_success l = true <-> BaseAdapter.errors l = 0))
  /\ (0 <= BaseAdapter.high s <= lines
      /\ 0 <= BaseAdapter.medium s <= lines
      /\ 0 <= BaseAdapter.low s <= lines
      /\ BaseAdapter.total_issues s
         = BaseAdapter.high s + BaseAdapter.medium s + BaseAdapter.low s
      /\ (BaseAdapter.security_success s = true <-> BaseAdapter.high s = 0)).
Proof.
  cbv zeta. rewrite <- split_lines_length.
  unfold BaseAdapter.parse_test_output, BaseAdapter.parse_lint_output,
    BaseAdapter.parse_security_output.
  cbn [BaseAdapter.passed BaseAdapter.failed BaseAdapter.total
       BaseAdapter.success BaseAdapter.errors BaseAdapter.warnings
       BaseAdapter.lint_total_issues BaseAdapter.lint_success
       BaseAdapter.high BaseAdapter.medium BaseAdapter.low
       BaseAdapter.total_issues BaseAdapter.security_success].
  repeat split; try apply count_if_bounds; try apply Z.eqb_eq.
Qed.

(** ** The Python security parser: what it raises and when it falls back *)

(** X4.  When the output decodes to anything but an object (a list, a
    text, a number, a boolean, [null]), the Python security parser
    raises [AttributeError]. *)
Theorem security_parser_needs_object
        (json_loads : string -> exc PyVal.pyval) (output : string)
        (bandit_data : PyVal.pyval) :
  json_loads output = Return bandit_data ->
  (forall d, bandit_data <> PyVal.PDict d) ->
  PythonAdapter.parse_security_output json_loads output
  = Raise AttributeError.
Proof.
  intros Hloads Hshape.
  unfold PythonAdapter.parse_security_output, PythonAdapter.parse_report.
  rewrite Hloads. unfold mbind, exc_bind.
  destruct bandit_data as [| b | z | f | s | l | d]; try reflexivity.
  exfalso. apply (Hshape d). reflexivity.
Qed.

Lemma security_parser_needs_object_witness :
  PythonAdapter.parse_security_output
    (fun _ => Return (PyVal.PStr "ok")) (Examples.quoted "ok")
  = Raise AttributeError.
Proof.
  apply (security_parser_needs_object
           (fun _ => Return (PyVal.PStr "ok")) (Examples.quoted "ok")
           (PyVal.PStr "ok")).
  - reflexivity.
  - intros d Hd. discriminate Hd.
Defined.

(** X5.  When the output is not JSON, the Python security parser
    returns what the generic parser returns on the same output: counts
    between 0 and the number of lines, and success exactly when no
    line reports a high severity. *)
Theorem security_parser_falls_back
        (json_loads : string -> exc PyVal.pyval) (output : string) :
  json_loads output = Raise JSONDecodeError ->
  exists r,
    PythonAdapter.parse_security_output json_loads output
    = Return (PythonAdapter.FromText r)
    /\ r = BaseAdapter.parse_security_output output
    /\ 0 <= BaseAdapter.high r <= Py.count_char "010" output + 1
    /\ 0 <= BaseAdapter.medium r <= Py.count_char "010" output + 1
    /\ 0 <= BaseAdapter.low r <= Py.count_char "010" output + 1
    /\ (PythonAdapter.result_success (PythonAdapter.FromText r) = true
        <-> BaseAdapter.high r = 0).
Proof.
  intros Hloads.
  exists (BaseAdapter.parse_security_output output).
  unfold PythonAdapter.parse_security_output, PythonAdapter.parse_report.
  rewrite Hloads. split; [reflexivity | split; [reflexivity |]].
  rewrite <- split_lines_length.
  unfold BaseAdapter.parse_security_output.
  cbn [BaseAdapter.high BaseAdapter.medium BaseAdapter.low
       PythonAdapter.result_success BaseAdapter.security_success].
  repeat split; try apply count_if_bounds; try apply Z.eqb_eq.
Qed.

Lemma security_parser_falls_back_witness :
  exists r,
    PythonAdapter.parse_security_output
      (fun _ => Raise JSONDecodeError) "Severity: High"
    = Return (PythonAdapter.FromText r)
    /\ r = BaseAdapter.parse_security_output "Severity: High"
    /\ 0 <= BaseAdapter.high r <= Py.count_char "010" "Severity: High" + 1
    /\ 0 <= BaseAdapter.medium r <= Py.count_char "010" "Severity: High" + 1
    /\ 0 <= BaseAdapter.low r <= Py.count_char "010" "Severity: High" + 1
    /\ (PythonAdapter.result_success (PythonAdapter.FromText r) = true
        <-> BaseAdapter.high r = 0).
Proof.
  apply (security_parser_falls_back
           (fun _ => Raise JSONDecodeError) "Severity: High").
  reflexivity.
Defined.

(** ** The Python test parser: the per-line tally *)

Lemma scan_line_counts (t : PythonAdapter.tally) (line : string) :
  let t' := PythonAdapter.scan_line t line in
  PythonAdapter.t_passed t <= PythonAdapter.t_passed t'
  /\ PythonAdapter.t_failed t <= PythonAdapter.t_failed t'
  /\ PythonAdapter.t_skipped t <= PythonAdapter.t_skipped t'
  /\ PythonAdapter.t_passed t' + PythonAdapter.t_failed t'
     + PythonAdapter.t_skipped t'
     <= PythonAdapter.t_passed t + PythonAdapter.t_failed t
        + PythonAdapter.t_skipped t + 1.
Proof.
  cbv zeta. unfold PythonAdapter.scan_line.
  destruct (PythonAdapter.marked "PASSED" line);
    [| destruct (PythonAdapter.marked "FAILED" line);
       [| destruct (PythonAdapter.marked "SKIPPED" line)]];
    (destruct (Py.contains "TOTAL" line && Py.contains "%" line);
     [destruct (Re.search PythonAdapter.coverage_pattern line) |]);
    cbn [PythonAdapter.t_passed PythonAdapter.t_failed
         PythonAdapter.t_skipped]; lia.
Qed.

Lemma scan_counts (lines : list string) (t : PythonAdapter.tally) :
  let t' := fold_left PythonAdapter.scan_line lines t in
  PythonAdapter.t_passed t <= PythonAdapter.t_passed t'
  /\ PythonAdapter.t_failed t <= PythonAdapter.t_failed t'
  /\ PythonAdapter.t_skipped t <= PythonAdapter.t_skipped t'
  /\ PythonAdapter.t_passed t' + PythonAdapter.t_failed t'
     + PythonAdapter.t_skipped t'
     <= PythonAdapter.t_passed t + PythonAdapter.t_failed t
        + PythonAdapter.t_skipped t + Z.of_nat (length lines).
Proof.
  cbv zeta. revert t. induction lines as [| line lines IH]; intros t.
  - cbn [fold_left length]. lia.
  - cbn [fold_left length]. rewrite Nat2Z.inj_succ.
    pose proof (scan_line_counts t line) as Hline. cbv zeta in Hline.
    specialize (IH (PythonAdapter.scan_line t line)). lia.
Qed.

Lemma scan_bounds (output : string) :
  0 <= PythonAdapter.t_passed (PythonAdapter.scan (Py.split_lines output))
  /\ 0 <= PythonAdapter.t_failed (PythonAdapter.scan (Py.split_lines output))
  /\ 0 <= PythonAdapter.t_skipped (PythonAdapter.scan (Py.split_lines output))
  /\ PythonAdapter.t_passed (PythonAdapter.scan (Py.split_lines output))
     + PythonAdapter.t_failed (PythonAdapter.scan (Py.split_lines output))
     + PythonAdapter.t_skipped (PythonAdapter.scan (Py.split_lines output))
     <= Py.count_char "010" output + 1.
Proof.
  rewrite <- split_lines_length. unfold PythonAdapter.scan.
  pose proof (scan_counts (Py.split_lines output)
    {| PythonAdapter.t_passed := 0; PythonAdapter.t_failed := 0;
       PythonAdapter.t_skipped := 0; PythonAdapter.t_coverage := None |})
    as H.
  cbv zeta in H.
  cbn [PythonAdapter.t_passed PythonAdapter.t_failed PythonAdapter.t_skipped]
    in H.
  lia.
Qed.

(** X6.  The per-line tally of the Python test parser counts every
    line at most once: the passed, failed and skipped tallies are not
    negative and together do not exceed the number of lines; the
    skipped count of the result obeys the same bounds. *)
Theorem tally_counts_each_line_once (output : string) :
  let t := PythonAdapter.scan (Py.split_lines output) in
  0 <= PythonAdapter.t_passed t
  /\ 0 <= PythonAdapter.t_failed t
  /\ 0 <= PythonAdapter.t_skipped t
  /\ PythonAdapter.t_passed t + PythonAdapter.t_failed t
     + PythonAdapter.t_skipped t <= Py.count_char "010" output + 1
  /\ 0 <= PythonAdapter.skipped (PythonAdapter.parse_test_output output)
       <= Py.count_char "010" output + 1.
Proof.
  cbv zeta. pose proof (scan_bounds output) as Hb.
  assert (Hskipped :
    PythonAdapter.skipped (PythonAdapter.parse_test_output output)
    = PythonAdapter.t_skipped (PythonAdapter.scan (Py.split_lines output))).
  { unfold PythonAdapter.parse_test_output.
    destruct (Re.search PythonAdapter.summary_pattern output); reflexivity. }
  rewrite Hskipped. lia.
Qed.

Lemma contains_sign_head (s : string) :
  Py.contains "=" (String "=" s) = true.
Proof.
  cbn [Py.contains String.prefix].
  destruct (ascii_dec "=" "=") as [_ | Hne]; [| contradiction].
  destruct s; reflexivity.
Qed.

Lemma chars_sign (s : string) :
  In "=" (Py.chars s) -> Py.contains "=" s = true.
Proof.
  induction s as [| c s IH]; intros Hin.
  - destruct Hin.
  - cbn [Py.chars] in Hin.
    destruct (Py.chars s) as [| ch chs].
    + destruct Hin as [Heq | []]. injection Heq as ->.
      apply contains_sign_head.
    + destruct (negb (Py.is_ascii c) && Py.continues ch) eqn:Hglue.
      * destruct Hin as [Heq | Hin].
        -- injection Heq as _ ->. apply andb_prop in Hglue as [_ Hch].
           discriminate Hch.
        -- cbn [Py.contains]. rewrite (IH (or_intror Hin)).
           apply orb_true_r.
      * destruct Hin as [Heq | Hin].
        -- injection Heq as ->. apply contains_sign_head.
        -- cbn [Py.contains]. rewrite (IH Hin). apply orb_true_r.
Qed.

Lemma search_needs_rule (s : string) :
  Py.contains "=" s = false ->
  Re.search PythonAdapter.summary_pattern s = None.
Proof.
  intros Hs. unfold Re.search.
  assert (Hchars : forall ch, In ch (Py.chars s) -> String.eqb "=" ch = false).
  { intros ch Hin. destruct (String.eqb_spec "=" ch) as [<- | Hne];
      [| reflexivity].
    rewrite (chars_sign s Hin) in Hs. discriminate Hs. }
  revert Hchars. generalize (Py.chars s) as chs.
  induction chs as [| ch chs IH]; intros Hchars.
  - reflexivity.
  - cbn [Re.search_chars].
    rewrite (summary_needs_rule ch chs (Hchars ch (or_introl eq_refl))).
    apply IH. intros ch' Hin. apply Hchars. right. exact Hin.
Qed.

(** X7.  An output without any sign [=] has no summary the parser
    recognises: the passed, failed and total counts of the result are
    those of the per-line tally, so they are not negative and the
    total does not exceed the number of lines. *)
Theorem no_rule_no_summary (output : string) :
  Py.contains "=" output = false ->
  let t := PythonAdapter.scan (Py.split_lines output) in
  let r := PythonAdapter.parse_test_output output in
  PythonAdapter.passed r = PythonAdapter.t_passed t
  /\ PythonAdapter.failed r = PythonAdapter.t_failed t
  /\ 0 <= PythonAdapter.passed r
  /\ 0 <= PythonAdapter.failed r
  /\ PythonAdapter.total r
     = PythonAdapter.passed r + PythonAdapter.failed r
       + PythonAdapter.skipped r
  /\ PythonAdapter.total r <= Py.count_char "010" output + 1.
Proof.
  intros Hrule. cbv zeta.
  pose proof (scan_bounds output) as Hb.
  unfold PythonAdapter.parse_test_output.
  rewrite (search_needs_rule output Hrule).
  cbn [PythonAdapter.passed PythonAdapter.failed PythonAdapter.total
       PythonAdapter.skipped].
  lia.
Qed.

Lemma no_rule_no_summary_witness :
  PythonAdapter.passed (PythonAdapter.parse_test_output "t.py::a PASSED")
  = PythonAdapter.t_passed (PythonAdapter.scan ["t.py::a PASSED"])
  /\ PythonAdapter.failed (PythonAdapter.parse_test_output "t.py::a PASSED")
     = PythonAdapter.t_failed (PythonAdapter.scan ["t.py::a PASSED"])
  /\ 0 <= PythonAdapter.passed (PythonAdapter.parse_test_output "t.py::a PASSED")
  /\ 0 <= PythonAdapter.failed (PythonAdapter.parse_test_output "t.py::a PASSED")
  /\ PythonAdapter.total (PythonAdapter.parse_test_output "t.py::a PASSED")
     = PythonAdapter.passed (PythonAdapter.parse_test_output "t.py::a PASSED")
       + PythonAdapter.failed (PythonAdapter.parse_test_output "t.py::a PASSED")
       + PythonAdapter.skipped (PythonAdapter.parse_test_output "t.py::a PASSED")
  /\ PythonAdapter.total (PythonAdapter.parse_test_output "t.py::a PASSED")
     <= 1.
Proof. apply (no_rule_no_summary "t.py::a PASSED"). reflexivity. Defined.

(** ** The static heuristics: bounds *)

Lemma complexity_fold_bounds (keywords : list string) (view : string -> string)
      (lines : list string) (complexity : Z) :
  complexity
  <= fold_left (fun complexity line =>
       fold_left (fun complexity keyword =>
         if Py.contains keyword (view line) then complexity + 1
         else complexity) keywords complexity) lines complexity
  <= complexity + Z.of_nat (length keywords) * Z.of_nat (length lines).
Proof.
  revert complexity. induction lines as [| line lines IH]; intros complexity.
  - cbn [fold_left length]. lia.
  - cbn [fold_left length]. rewrite Nat2Z.inj_succ.
    pose proof (count_if_acc (fun keyword => Py.contains keyword (view line))
                  keywords complexity) as Hline.
    specialize (IH (fold_left (fun complexity keyword =>
      if Py.contains keyword (view line) then complexity + 1 else complexity)
      keywords complexity)).
    lia.
Qed.

(** X8.  For a file that can be read the complexity estimate is at
    least 1 and at most 1 plus the number of keywords times the number
    of lines (9 keywords for the generic adapter, 12 for the Python
    adapter); so the estimate is 0 exactly when the file cannot be
    read. *)
Theorem complexity_zero_iff_unreadable (read_text : exc string)
        (content : string) :
  (1 <= BaseAdapter.estimate_complexity (Return content)
     <= 1 + 9 * (Py.count_char "010" content + 1))
  /\ (1 <= PythonAdapter.estimate_complexity (Return content)
        <= 1 + 12 * (Py.count_char "010" content + 1))
  /\ (BaseAdapter.estimate_complexity read_text = 0
      <-> exists e, read_text = Raise e)
  /\ (PythonAdapter.estimate_complexity read_text = 0
      <-> exists e, read_text = Raise e).
Proof.
  assert (Hbase : forall content,
    1 <= BaseAdapter.estimate_complexity (Return content)
      <= 1 + 9 * (Py.count_char "010" content + 1)).
  { intros c. rewrite <- split_lines_length.
    unfold BaseAdapter.estimate_complexity.
    apply (complexity_fold_bounds BaseAdapter.complexity_keywords
             (fun line => line) (Py.split_lines c) 1). }
  assert (Hpython : forall content,
    1 <= PythonAdapter.estimate_complexity (Return content)
      <= 1 + 12 * (Py.count_char "010" content + 1)).
  { intros c. rewrite <- split_lines_length.
    unfold PythonAdapter.estimate_complexity.
    apply (complexity_fold_bounds PythonAdapter.complexity_keywords
             Py.strip (Py.split_lines c) 1). }
  split; [apply Hbase | split; [apply Hpython |]].
  split; (split; [| intros [e ->]; reflexivity]).
  - destruct read_text as [c | e]; [| eexists; reflexivity].
    intros H0. specialize (Hbase c). lia.
  - destruct read_text as [c | e]; [| eexists; reflexivity].
    intros H0. specialize (Hpython c). lia.
Qed.

(** ** The static heuristics: counting functions *)

Lemma prefix_nil (s : string) : String.prefix "" s = true.
Proof. destruct s; reflexivity. Qed.

Lemma prefix_contains (sub s : string) :
  String.prefix sub s = true -> Py.contains sub s = true.
Proof. intros H. destruct s; cbn [Py.contains]; rewrite H; reflexivity. Qed.

Lemma contains_cons (sub : string) (c : ascii) (s : string) :
  Py.contains sub s = true -> Py.contains sub (String c s) = true.
Proof. intros H. cbn [Py.contains]. rewrite H. apply orb_true_r. Qed.

Lemma prefix_app (sub a t : string) :
  String.prefix sub a = true -> String.prefix sub (a +:+ t) = true.
Proof.
  revert a. induction sub as [| c sub IH]; intros a H.
  - apply prefix_nil.
  - destruct a as [| d a]; [discriminate H |].
    change (String d a +:+ t) with (String d (a +:+ t)).
    cbn [String.prefix] in *.
    destruct (ascii_dec c d); [apply IH; exact H | discriminate H].
Qed.

Lemma contains_app (sub a t : string) :
  Py.contains sub a = true -> Py.contains sub (a +:+ t) = true.
Proof.
  induction a as [| c a IH]; intros H.
  - cbn [Py.contains] in H. rewrite orb_false_r in H.
    apply prefix_contains. apply (prefix_app sub "" t H).
  - change (String c a +:+ t) with (String c (a +:+ t)).
    cbn [Py.contains] in *.
    apply orb_true_iff in H as [H | H].
    + pose proof (prefix_app sub (String c a) t H) as Hp.
      change (String c a +:+ t) with (String c (a +:+ t)) in Hp.
      rewrite Hp. reflexivity.
    + rewrite (IH H). apply orb_true_r.
Qed.

Lemma append_assoc (a b c : string) : (a +:+ b) +:+ c = a +:+ b +:+ c.
Proof.
  induction a as [| x a IH].
  - reflexivity.
  - change (String x (a +:+ b) +:+ c = String x (a +:+ b +:+ c)).
    change (String x ((a +:+ b) +:+ c) = String x (a +:+ b +:+ c)).
    rewrite IH. reflexivity.
Qed.

Lemma contains_app_l (sub a s : string) :
  Py.contains sub s = true -> Py.contains sub (a +:+ s) = true.
Proof.
  intros H. induction a as [| c a IH].
  - exact H.
  - change (String c a +:+ s) with (String c (a +:+ s)).
    apply contains_cons. exact IH.
Qed.

(** A text is its characters joined. *)
Lemma join_chars (s : string) : Py.join (Py.chars s) = s.
Proof.
  induction s as [| c s IH].
  - reflexivity.
  - cbn [Py.chars]. destruct (Py.chars s) as [| ch chs].
    + cbn [Py.join fold_right] in *. rewrite <- IH. reflexivity.
    + destruct (negb (Py.is_ascii c) && Py.continues ch);
        cbn [Py.join fold_right] in *; rewrite <- IH; reflexivity.
Qed.

Lemma join_app (a b : list string) :
  Py.join (a ++ b) = Py.join a +:+ Py.join b.
Proof.
  induction a as [| ch a IH].
  - reflexivity.
  - cbn [app].
    change (ch +:+ Py.join (a ++ b) = (ch +:+ Py.join a) +:+ Py.join b).
    rewrite IH. symmetry. apply append_assoc.
Qed.

Lemma drop_space_suffix (chs : list string) :
  exists spaces, chs = (spaces ++ Py.drop_space chs)%list.
Proof.
  induction chs as [| ch chs [spaces IH]].
  - exists []. reflexivity.
  - cbn [Py.drop_space]. destruct (Py.is_space ch).
    + exists (ch :: spaces). cbn [app]. rewrite <- IH. reflexivity.
    + exists []. reflexivity.
Qed.

(** What occurs in the stripped line occurs in the line. *)
Lemma contains_strip (sub s : string) :
  Py.contains sub (Py.strip s) = true -> Py.contains sub s = true.
Proof.
  unfold Py.strip. intros H.
  destruct (drop_space_suffix (Py.chars s)) as [left Hleft].
  destruct (drop_space_suffix (rev (Py.drop_space (Py.chars s))))
    as [right Hright].
  apply (f_equal (@rev string)) in Hright.
  rewrite rev_involutive, rev_app_distr in Hright.
  rewrite <- (join_chars s), Hleft, Hright, !join_app.
  apply contains_app_l. apply contains_app. exact H.
Qed.

Lemma prefix_app_contains (a b s : string) :
  String.prefix (a +:+ b) s = true -> Py.contains b s = true.
Proof.
  revert s. induction a as [| c a IH]; intros s H.
  - apply prefix_contains. exact H.
  - change (String c a +:+ b) with (String c (a +:+ b)) in H.
    destruct s as [| d s]; [discriminate H |].
    cbn [String.prefix] in H.
    destruct (ascii_dec c d); [| discriminate H].
    apply contains_cons. apply IH. exact H.
Qed.

Lemma python_function_line (line : string) :
  Py.startswith (Py.strip line) "def "
  || Py.startswith (Py.strip line) "async def " = true ->
  existsb (fun keyword => Py.contains keyword line)
          ["def "; "function "; "func "] = true.
Proof.
  intros H. cbn [existsb].
  assert (Hdef : Py.contains "def " line = true).
  { apply contains_strip. unfold Py.startswith in H.
    apply orb_true_iff in H as [H | H].
    - apply prefix_contains. exact H.
    - apply (prefix_app_contains "async " "def "). exact H. }
  rewrite Hdef. reflexivity.
Qed.

Lemma count_fold_le {A} (p q : A -> bool) (xs : list A) (m n : Z) :
  (forall x, p x = true -> q x = true) -> m <= n ->
  fold_left (fun n x => if p x then n + 1 else n) xs m
  <= fold_left (fun n x => if q x then n + 1 else n) xs n.
Proof.
  intros Hpq. revert m n. induction xs as [| x xs IH]; intros m n Hmn.
  - exact Hmn.
  - cbn [fold_left]. apply IH.
    destruct (p x) eqn:Hp.
    + rewrite (Hpq x Hp). lia.
    + destruct (q x); lia.
Qed.

(** X9.  On the same file the Python adapter never counts more
    functions than the generic adapter: every line whose stripped
    text starts with [def ] or [async def ] contains [def ].  Both
    counts lie between 0 and the number of lines. *)
Theorem python_function_count_below_generic (read_text : exc string) :
  0 <= PythonAdapter.get_function_count read_text
    <= BaseAdapter.get_function_count read_text
  /\ forall content, read_text = Return content ->
     BaseAdapter.get_function_count read_text
     <= Py.count_char "010" content + 1.
Proof.
  destruct read_text as [content | e].
  - unfold PythonAdapter.get_function_count, BaseAdapter.get_function_count.
    split; [split |].
    + apply (count_if_acc
               (fun line => Py.startswith (Py.strip line) "def "
                            || Py.startswith (Py.strip line) "async def ")
               (Py.split_lines content) 0).
    + apply (count_fold_le
               (fun line => Py.startswith (Py.strip line) "def "
                            || Py.startswith (Py.strip line) "async def ")
               (fun line => existsb (fun keyword => Py.contains keyword line)
                                    ["def "; "function "; "func "])).
      * apply python_function_line.
      * lia.
    + intros c Hc. injection Hc as <-. rewrite <- split_lines_length.
      apply (count_if_acc
               (fun line => existsb (fun keyword => Py.contains keyword line)
                                    ["def "; "function "; "func "])
               (Py.split_lines content) 0).
  - split; [cbn; lia | intros c Hc; discriminate Hc].
Qed.

(** ** The classifier: what the walk collects *)

Lemma node_induction (P : Init.node -> Prop) :
  (forall read_text, P (Init.File read_text)) ->
  (forall entries,
     Forall (fun e => P (snd e)) entries -> P (Init.Dir entries)) ->
  forall n, P n.
Proof.
  intros HFile HDir. fix IH 1. intros [read_text | entries].
  - apply HFile.
  - apply HDir. induction entries as [| [name child] entries IHentries].
    + constructor.
    + constructor; [apply IH | apply IHentries].
Qed.

Lemma plain_names_entries (entries : list (string * Init.node))
      (name : string) (child : Init.node) :
  Init.plain_names (Init.Dir entries) = true ->
  In (name, child) entries ->
  Py.contains "/" name = false /\ Init.plain_names child = true.
Proof.
  cbn [Init.plain_names].
  induction entries as [| [n c] entries IH]; intros Hall Hin.
  - destruct Hin.
  - apply andb_prop in Hall as [Hhead Hall].
    apply andb_prop in Hhead as [Hname Hchild].
    destruct Hin as [Heq | Hin].
    + injection Heq as <- <-. split; [| exact Hchild].
      apply negb_true_iff. exact Hname.
    + apply IH; assumption.
Qed.

Lemma file_names_in (entries : list (string * Init.node)) (f : string) :
  In f (Init.file_names entries) -> exists child, In (f, child) entries.
Proof.
  unfold Init.file_names. intros Hin.
  apply in_map_iff in Hin as [[name child] [Hname Hin]].
  apply filter_In in Hin as [Hin _].
  cbn in Hname. subst name. exists child. exact Hin.
Qed.

Lemma walk_below (top : string) (entries : list (string * Init.node))
      (step : string * list string * list string) :
  In step (Init.walk top (Init.Dir entries)) ->
  step = (top, Init.dir_names entries, Init.file_names entries)
  \/ exists name child,
       In (name, child) entries
       /\ In step (Init.walk (Init.path_join top name) child).
Proof.
  cbn [Init.walk]. intros [Hhead | Hbelow]; [left; symmetry; exact Hhead |].
  right. induction entries as [| [n c] entries IH].
  - destruct Hbelow.
  - apply in_app_or in Hbelow as [Hhere | Hbelow].
    + exists n, c. split; [left; reflexivity | exact Hhere].
    + destruct (IH Hbelow) as [name [child [Hin Hstep]]].
      exists name, child. split; [right; exact Hin | exact Hstep].
Qed.

Lemma walk_files_plain (n : Init.node) :
  forall top root dirs files f,
    Init.plain_names n = true ->
    In (root, dirs, files) (Init.walk top n) ->
    In f files ->
    Py.contains "/" f = false.
Proof.
  induction n as [read_text | entries IH] using node_induction;
    intros top root dirs files f Hplain Hstep Hf.
  - destruct Hstep.
  - apply walk_below in Hstep as [Hhead | [name [child [Hin Hstep]]]].
    + injection Hhead as -> -> ->.
      apply file_names_in in Hf as [child Hin].
      apply (plain_names_entries entries f child Hplain Hin).
    + rewrite Forall_forall in IH.
      apply (IH (name, child) (proj2 (list_elem_of_In _ _) Hin)
               (Init.path_join top name) root dirs files f);
        [| exact Hstep | exact Hf].
      apply (plain_names_entries entries name child Hplain Hin).
Qed.

Lemma files_in_project_from_walk (project_path : string) (tree : Init.node)
      (f : string) :
  f ∈ Init.files_in_project project_path tree ->
  exists root dirs files,
    In (root, dirs, files) (Init.walk project_path tree)
    /\ In f files
    /\ Init.ignored root = false
    /\ Init.too_deep project_path root = false.
Proof.
  unfold Init.files_in_project.
  generalize (Init.walk project_path tree) as steps.
  intros steps.
  assert (Hgen : forall (acc : gset string),
    f ∈ fold_left (fun (files_in_project : gset string) step =>
      let '(root, _, files) := step in
      if Init.ignored root then files_in_project
      else if Init.too_deep project_path root then files_in_project
      else files_in_project ∪ list_to_set files) steps acc ->
    f ∈ acc \/ exists root dirs files,
      In (root, dirs, files) steps /\ In f files
      /\ Init.ignored root = false
      /\ Init.too_deep project_path root = false).
  { induction steps as [| [[root dirs] files] steps IH]; intros acc Hf.
    - left. exact Hf.
    - cbn [fold_left] in Hf. apply IH in Hf as [Hacc | Hlater].
      + destruct (Init.ignored root) eqn:Hig; [left; exact Hacc |].
        destruct (Init.too_deep project_path root) eqn:Hdeep;
          [left; exact Hacc |].
        apply elem_of_union in Hacc as [Hacc | Hnew]; [left; exact Hacc |].
        right. exists root, dirs, files.
        apply elem_of_list_to_set in Hnew. apply list_elem_of_In in Hnew.
        repeat split; [left; reflexivity | exact Hnew | exact Hig | exact Hdeep].
      + right. destruct Hlater as [r [d [fs [Hin Hrest]]]].
        exists r, d, fs. split; [right; exact Hin | exact Hrest]. }
  intros Hf. apply Hgen in Hf as [Hempty | Hfound]; [| exact Hfound].
  apply elem_of_empty in Hempty. destruct Hempty.
Qed.

(** X10.  The walk collects base names only.  In a project whose
    entries have names without the separator, as a file system gives
    them, no collected name holds a separator; so an indicator that
    names a path ([src/main.rs], [src/lib.rs], [src/App.tsx],
    [src/App.jsx], [public/index.html]) is never found and adds
    nothing to a score. *)
Theorem path_indicators_never_match (project_path : string)
        (tree : Init.node) (indicator : string) :
  Init.plain_names tree = true ->
  Py.contains "/" indicator = true ->
  indicator ∉ Init.files_in_project project_path tree.
Proof.
  intros Hplain Hsep Hin.
  apply files_in_project_from_walk in Hin
    as [root [dirs [files [Hstep [Hf _]]]]].
  pose proof (walk_files_plain tree project_path root dirs files indicator
                Hplain Hstep Hf) as Hno.
  rewrite Hsep in Hno. discriminate Hno.
Qed.

Lemma path_indicators_never_match_witness :
  "src/main.rs" ∉ Init.files_in_project "/work/demo"
                    (Examples.rust_tree "[package]").
Proof.
  apply path_indicators_never_match; reflexivity.
Defined.

Lemma path_join_extends (top name : string) :
  exists t, Init.path_join top name = top +:+ t.
Proof.
  unfold Init.path_join. destruct (Init.ends_with_sep top); eexists; reflexivity.
Qed.

(** Every directory the walk visits has a path that extends [top]. *)
Lemma walk_roots_extend (n : Init.node) :
  forall top root dirs files,
    In (root, dirs, files) (Init.walk top n) ->
    exists t, root = top +:+ t.
Proof.
  induction n as [read_text | entries IH] using node_induction;
    intros top root dirs files Hstep.
  - destruct Hstep.
  - apply walk_below in Hstep as [Hhead | [name [child [Hin Hstep]]]].
    + injection Hhead as -> _ _. exists "".
      clear. induction top as [| c top IH]; [reflexivity |].
      change (String c top = String c (top +:+ "")). rewrite <- IH. reflexivity.
    + rewrite Forall_forall in IH.
      destruct (IH (name, child) (proj2 (list_elem_of_In _ _) Hin)
                  (Init.path_join top name) root dirs files Hstep) as [t Ht].
      destruct (path_join_extends top name) as [u Hu].
      exists (u +:+ t). rewrite Ht, Hu. apply append_assoc.
Qed.

Lemma ignored_extends (top t : string) :
  Init.ignored top = true -> Init.ignored (top +:+ t) = true.
Proof.
  unfold Init.ignored. cbn [existsb]. intros H.
  repeat (apply orb_true_iff in H as [H | H];
          [rewrite (contains_app _ top t H); rewrite ?orb_true_r; reflexivity |]).
  discriminate H.
Qed.

(** X11.  When the path of the project itself contains one of the
    ignored names ([.git], [node_modules], [__pycache__], [.venv]),
    every directory of the walk is skipped and no file name is
    collected at all. *)
Theorem ignored_project_path_hides_all_files (project_path : string)
        (tree : Init.node) :
  Init.ignored project_path = true ->
  Init.files_in_project project_path tree = ∅.
Proof.
  intros Hig. unfold Init.files_in_project.
  assert (Hroots : forall step, In step (Init.walk project_path tree) ->
                     Init.ignored (fst (fst step)) = true).
  { intros [[root dirs] files] Hstep.
    apply walk_roots_extend in Hstep as [t ->].
    apply ignored_extends. exact Hig. }
  revert Hroots. generalize (Init.walk project_path tree) as steps.
  induction steps as [| [[root dirs] files] steps IH]; intros Hroots.
  - reflexivity.
  - cbn [fold_left].
    pose proof (Hroots (root, dirs, files) (or_introl eq_refl)) as Hroot.
    cbn [fst] in Hroot. rewrite Hroot.
    apply IH. intros step Hstep. apply Hroots. right. exact Hstep.
Qed.

Lemma ignored_project_path_hides_all_files_witness :
  Init.files_in_project "/home/dev/my.github.io"
    (Examples.rust_tree "[package]") = ∅.
Proof.
  apply ignored_project_path_hides_all_files. reflexivity.
Defined.

Lemma files_fold_grows (project_path : string)
      (steps : list (string * list string * list string))
      (acc : gset string) (f : string) :
  f ∈ acc ->
  f ∈ fold_left (fun (files_in_project : gset string) step =>
        let '(root, _, files) := step in
        if Init.ignored root then files_in_project
        else if Init.too_deep project_path root then files_in_project
        else files_in_project ∪ list_to_set files) steps acc.
Proof.
  revert acc. induction steps as [| [[root dirs] files] steps IH];
    intros acc Hf.
  - exact Hf.
  - cbn [fold_left]. apply IH.
    destruct (Init.ignored root); [exact Hf |].
    destruct (Init.too_deep project_path root); [exact Hf |].
    apply elem_of_union. left. exact Hf.
Qed.

(** X12.  Unless the path of the project contains an ignored name,
    every file that lies directly in the project directory is
    collected. *)
Theorem top_level_files_are_collected (project_path : string)
        (entries : list (string * Init.node)) (f : string) :
  Init.ignored project_path = false ->
  In f (Init.file_names entries) ->
  f ∈ Init.files_in_project project_path (Init.Dir entries).
Proof.
  intros Hig Hf. unfold Init.files_in_project.
  cbn [Init.walk fold_left]. rewrite Hig.
  assert (Hdeep : Init.too_deep project_path project_path = false).
  { unfold Init.too_deep. apply Z.ltb_ge. lia. }
  rewrite Hdeep. apply files_fold_grows.
  apply elem_of_union. right.
  apply elem_of_list_to_set. apply list_elem_of_In. exact Hf.
Qed.

Lemma top_level_files_are_collected_witness :
  "Cargo.toml" ∈ Init.files_in_project "/work/demo"
                   (Examples.rust_tree "[package]").
Proof.
  apply top_level_files_are_collected; [reflexivity |].
  left. reflexivity.
Defined.

(** ** The classifier: scores and the choice of the template *)

Lemma indicator_fold (files : gset string) (indicators : list string)
      (score : Z) :
  fold_left (fun score indicator =>
    if bool_decide (indicator ∈ files) then score + 3 else score)
    indicators score
  = score + 3 * Z.of_nat (length (List.filter
      (fun indicator => bool_decide (indicator ∈ files)) indicators)).
Proof.
  revert score. induction indicators as [| indicator indicators IH];
    intros score.
  - cbn [fold_left List.filter length]. lia.
  - cbn [fold_left List.filter]. rewrite IH.
    destruct (bool_decide (indicator ∈ files)).
    + cbn [length]. rewrite Nat2Z.inj_succ. lia.
    + reflexivity.
Qed.

(** X13.  The score of a template is 3 for each of its indicators
    found among the collected file names, plus 5 once when one of its
    keywords occurs in a manifest; it lies between 0 and 3 times the
    number of indicators plus 5. *)
Theorem score_formula (files found : gset string) (template_name : string)
        (t : Init.template) :
  Init.score files found template_name t
  = 3 * Z.of_nat (length (List.filter
        (fun indicator => bool_decide (indicator ∈ files))
        (Init.indicators t)))
    + (if bool_decide (template_name ∈ found) then 5 else 0)
  /\ 0 <= Init.score files found template_name t
       <= 3 * Z.of_nat (length (Init.indicators t)) + 5.
Proof.
  unfold Init.score. rewrite indicator_fold.
  pose proof (List.filter_length_le
                (fun indicator => bool_decide (indicator ∈ files))
                (Init.indicators t)) as Hle.
  destruct (bool_decide (template_name ∈ found)); split; lia.
Qed.

(** X14.  When the walk collects no file name and no manifest holds a
    keyword, every score is 0 and the classifier answers with the
    default, [python_api]. *)
Theorem nothing_found_gives_default (project_path : string)
        (tree : Init.node) :
  Init.files_in_project project_path tree = ∅ ->
  Init.keywords_found tree = ∅ ->
  Init.detect_project_type project_path tree = "python_api".
Proof.
  intros Hfiles Hfound.
  unfold Init.detect_project_type, Init.scores.
  rewrite Hfiles, Hfound. vm_compute. reflexivity.
Qed.

Lemma nothing_found_gives_default_witness :
  Init.detect_project_type "/work/empty" (Init.Dir []) = "python_api".
Proof.
  apply nothing_found_gives_default; reflexivity.
Defined.

Lemma first_maximum (first : string * Z) (rest : list (string * Z)) :
  forall before after,
    (forall x, In x before -> snd x < snd first) ->
    (forall x, In x after -> snd x <= snd first) ->
    exists best before' after',
      (before ++ first :: after ++ rest)%list
      = (before' ++ best :: after')%list
      /\ fold_left (fun best x => if (snd best <? snd x)%Z then x else best)
                   rest first = best
      /\ (forall x, In x before' -> snd x < snd best)
      /\ (forall x, In x after' -> snd x <= snd best).
Proof.
  revert first. induction rest as [| x rest IH];
    intros first before after Hbefore Hafter.
  - exists first, before, after. rewrite app_nil_r. auto.
  - cbn [fold_left]. destruct (snd first <? snd x)%Z eqn:Hlt.
    + apply Z.ltb_lt in Hlt.
      destruct (IH x (before ++ first :: after)%list [])
        as [best [before' [after' [Heq [Hfold [Hb Ha]]]]]].
      * intros y Hy. apply in_app_or in Hy as [Hy | [<- | Hy]].
        -- specialize (Hbefore y Hy). lia.
        -- exact Hlt.
        -- specialize (Hafter y Hy). lia.
      * intros y [].
      * exists best, before', after'. split; [| auto].
        rewrite <- Heq. rewrite <- ?app_assoc. cbn [app].
        rewrite <- ?app_assoc. reflexivity.
    + apply Z.ltb_ge in Hlt.
      destruct (IH first before (after ++ [x])%list)
        as [best [before' [after' [Heq [Hfold [Hb Ha]]]]]].
      * exact Hbefore.
      * intros y Hy. apply in_app_or in Hy as [Hy | [<- | []]].
        -- apply Hafter. exact Hy.
        -- exact Hlt.
      * exists best, before', after'. split; [| auto].
        rewrite <- Heq. rewrite <- ?app_assoc. cbn [app].
        rewrite <- ?app_assoc. reflexivity.
Qed.

Lemma max_value_is_max (first : string * Z) (rest : list (string * Z)) :
  snd (fold_left (fun best x => if (snd best <? snd x)%Z then x else best)
                 rest first)
  = Init.max_value first rest.
Proof.
  unfold Init.max_value. revert first.
  induction rest as [| x rest IH]; intros first.
  - reflexivity.
  - cbn [fold_left]. destruct (snd first <? snd x)%Z eqn:Hlt.
    + apply Z.ltb_lt in Hlt. rewrite IH.
      replace (Z.max (snd first) (snd x)) with (snd x) by lia.
      clear. generalize (snd x) as m. induction rest; reflexivity.
    + apply Z.ltb_ge in Hlt.
      replace (Z.max (snd first) (snd x)) with (snd first) by lia.
      apply IH.
Qed.

(** X15.  When some template has a positive score, the classifier
    answers with the first template, in the order of the catalogue,
    among those with the greatest score: every template listed before
    it has a smaller score and none listed after it has a greater
    one. *)
Theorem first_best_template_wins (project_path : string)
        (tree : Init.node) :
  (exists x, In x (Init.scores project_path tree) /\ 0 < snd x) ->
  exists best before after,
    Init.scores project_path tree
    = (before ++ (Init.detect_project_type project_path tree, best)
         :: after)%list
    /\ 0 < best
    /\ (forall x, In x before -> snd x < best)
    /\ (forall x, In x after -> snd x <= best).
Proof.
  intros [x [Hx Hpos]]. unfold Init.detect_project_type.
  destruct (Init.scores project_path tree) as [| first rest];
    [destruct Hx |].
  destruct (first_maximum first rest [] [])
    as [best [before [after [Heq [Hfold [Hbefore Hafter]]]]]];
    [intros y [] | intros y [] |].
  cbn [app] in Heq.
  pose proof (max_value_is_max first rest) as Hmax. rewrite Hfold in Hmax.
  assert (Hbest : snd x <= snd best).
  { rewrite Heq in Hx. apply in_app_or in Hx as [Hx | [<- | Hx]].
    - specialize (Hbefore x Hx). lia.
    - lia.
    - apply Hafter. exact Hx. }
  assert (Hgt : (0 <? Init.max_value first rest)%Z = true).
  { apply Z.ltb_lt. lia. }
  rewrite Hgt. unfold Init.max_key. rewrite Hfold.
  exists (snd best), before, after.
  rewrite Heq. destruct best as [name value]. cbn [fst snd] in *.
  repeat split; [lia | exact Hbefore | exact Hafter].
Qed.

Lemma first_best_template_wins_witness :
  exists best before after,
    Init.scores "/work/app"
      (Init.Dir [("requirements.txt", Init.File (Return "requests"))])
    = (before
       ++ (Init.detect_project_type "/work/app"
             (Init.Dir [("requirements.txt", Init.File (Return "requests"))]),
           best)
       :: after)%list
    /\ 0 < best
    /\ (forall x, In x before -> snd x < best)
    /\ (forall x, In x after -> snd x <= best).
Proof.
  apply (first_best_template_wins "/work/app"
           (Init.Dir [("requirements.txt", Init.File (Return "requests"))])).
  exists ("python_ml", 3). split; [left; reflexivity | reflexivity].
Defined.

(** ** The Python lint parser *)

Lemma sum_values_bump (m : gmap string Z) (code : string) :
  map_fold (fun _ n acc => n + acc) 0
    (<[code := default 0 (m !! code) + 1]> m)
  = map_fold (fun _ n acc => n + acc) 0 m + 1.
Proof.
  destruct (m !! code) as [n |] eqn:Hcode; cbn [default].
  - rewrite <- (insert_delete_eq m code (n + 1)).
    rewrite map_fold_insert_L.
    + rewrite (map_fold_delete_L (fun _ n acc => n + acc) 0 code n m).
      * lia.
      * intros. lia.
      * exact Hcode.
    + intros. lia.
    + apply lookup_delete_eq.
  - rewrite map_fold_insert_L.
    + lia.
    + intros. lia.
    + exact Hcode.
Qed.

Lemma lint_line_counts (t : PythonAdapter.lint_tally) (line : string) :
  let t' := PythonAdapter.lint_line t line in
  let sum := map_fold (fun (_ : string) n acc => n + acc) 0 in
  PythonAdapter.l_errors t <= PythonAdapter.l_errors t'
  /\ PythonAdapter.l_warnings t <= PythonAdapter.l_warnings t'
  /\ PythonAdapter.l_errors t' + PythonAdapter.l_warnings t'
     <= PythonAdapter.l_errors t + PythonAdapter.l_warnings t + 1
  /\ sum (PythonAdapter.l_issues_by_type t')
     - sum (PythonAdapter.l_issues_by_type t)
     = PythonAdapter.l_errors t' + PythonAdapter.l_warnings t'
       - (PythonAdapter.l_errors t + PythonAdapter.l_warnings t).
Proof.
  cbv zeta. unfold PythonAdapter.lint_line.
  destruct (Py.contains ":" line
            && bool_decide (is_Some (Re.search PythonAdapter.code_pattern line)));
    [| lia].
  destruct (Re.search (Re.Grp 1 PythonAdapter.code_pattern) line)
    as [code_match |]; [| lia].
  destruct (Py.startswith (Re.group 1 code_match) "E"
            || Py.startswith (Re.group 1 code_match) "F");
    cbn [PythonAdapter.l_errors PythonAdapter.l_warnings
         PythonAdapter.l_issues_by_type];
    rewrite sum_values_bump; lia.
Qed.

Lemma lint_fold_counts (lines : list string) (t : PythonAdapter.lint_tally) :
  let t' := fold_left PythonAdapter.lint_line lines t in
  let sum := map_fold (fun (_ : string) n acc => n + acc) 0 in
  PythonAdapter.l_errors t <= PythonAdapter.l_errors t'
  /\ PythonAdapter.l_warnings t <= PythonAdapter.l_warnings t'
  /\ PythonAdapter.l_errors t' + PythonAdapter.l_warnings t'
     <= PythonAdapter.l_errors t + PythonAdapter.l_warnings t
        + Z.of_nat (length lines)
  /\ sum (PythonAdapter.l_issues_by_type t')
     - sum (PythonAdapter.l_issues_by_type t)
     = PythonAdapter.l_errors t' + PythonAdapter.l_warnings t'
       - (PythonAdapter.l_errors t + PythonAdapter.l_warnings t).
Proof.
  cbv zeta. revert t. induction lines as [| line lines IH]; intros t.
  - cbn [fold_left length]. lia.
  - cbn [fold_left length]. rewrite Nat2Z.inj_succ.
    pose proof (lint_line_counts t line) as Hline. cbv zeta in Hline.
    specialize (IH (PythonAdapter.lint_line t line)). lia.
Qed.

(** X16.  In the result of the Python lint parser the counts per code
    add up to the total: the sum of the values of [issues_by_type] is
    [total_issues], which is errors plus warnings; neither count is
    negative, the total does not exceed the number of lines, and
    success holds exactly when there is no error. *)
Theorem lint_counts_add_up (output : string) :
  let r := PythonAdapter.parse_lint_output output in
  map_fold (fun (_ : string) n acc => n + acc) 0
    (PythonAdapter.lint_issues_by_type r)
  = PythonAdapter.lint_total_issues r
  /\ PythonAdapter.lint_total_issues r
     = PythonAdapter.errors r + PythonAdapter.warnings r
  /\ 0 <= PythonAdapter.errors r
  /\ 0 <= PythonAdapter.warnings r
  /\ PythonAdapter.lint_total_issues r <= Py.count_char "010" output + 1
  /\ (PythonAdapter.lint_success r = true <-> PythonAdapter.errors r = 0).
Proof.
  cbv zeta. rewrite <- split_lines_length.
  unfold PythonAdapter.parse_lint_output.
  cbn [PythonAdapter.lint_issues_by_type PythonAdapter.lint_total_issues
       PythonAdapter.errors PythonAdapter.warnings
       PythonAdapter.lint_success].
  pose proof (lint_fold_counts (Py.split_lines output)
    {| PythonAdapter.l_errors := 0; PythonAdapter.l_warnings := 0;
       PythonAdapter.l_issues_by_type := ∅ |}) as H.
  cbv zeta in H.
  cbn [PythonAdapter.l_errors PythonAdapter.l_warnings
       PythonAdapter.l_issues_by_type] in H.
  rewrite map_fold_empty in H.
  repeat split; try lia; apply Z.eqb_eq.
Qed.

(** ** Function lengths *)

Lemma base_check_function_nil (max_lines : Z) (st : BaseAdapter.length_scan)
      (i : Z) :
  BaseAdapter.violations st = [] ->
  0 <= BaseAdapter.function_start st ->
  i <= max_lines ->
  BaseAdapter.check_function max_lines st i = [].
Proof.
  intros Hnil Hstart Hi. unfold BaseAdapter.check_function.
  destruct (BaseAdapter.current_function st) as [f |]; [| exact Hnil].
  assert (Hle : (max_lines <? i - BaseAdapter.function_start st)%Z = false)
    by (apply Z.ltb_ge; lia).
  rewrite Hle, andb_false_r. exact Hnil.
Qed.

Lemma base_scan_short (max_lines : Z) (lines : list string) :
  forall (i : Z) (st : BaseAdapter.length_scan),
    BaseAdapter.violations st = [] ->
    0 <= BaseAdapter.function_start st ->
    0 <= i ->
    i + Z.of_nat (length lines) <= max_lines ->
    let st' := fold_left (BaseAdapter.check_line max_lines)
                 (Py.enumerate_from i lines) st in
    BaseAdapter.violations st' = [] /\ 0 <= BaseAdapter.function_start st'.
Proof.
  induction lines as [| line lines IH]; intros i st Hnil Hstart Hi Hlen.
  - cbn. auto.
  - cbn [Py.enumerate_from fold_left length] in *.
    rewrite Nat2Z.inj_succ in Hlen.
    apply IH; try lia; unfold BaseAdapter.check_line;
      destruct (Py.contains "def " line || Py.contains "function " line);
      cbn [BaseAdapter.violations BaseAdapter.function_start];
      try assumption; try lia.
    apply base_check_function_nil; [assumption | assumption | lia].
Qed.

Lemma python_check_function_nil (name : string) (max_lines : Z)
      (st : PythonAdapter.length_scan) (i : Z) :
  PythonAdapter.violations st = [] ->
  0 <= PythonAdapter.function_start st ->
  i <= max_lines ->
  PythonAdapter.check_function name max_lines st i = [].
Proof.
  intros Hnil Hstart Hi. unfold PythonAdapter.check_function.
  destruct (PythonAdapter.current_function st) as [f |]; [| exact Hnil].
  assert (Hle : (max_lines <? i - PythonAdapter.function_start st)%Z = false)
    by (apply Z.ltb_ge; lia).
  rewrite Hle, andb_false_r. exact Hnil.
Qed.

Lemma python_check_line_short (name : string) (max_lines : Z)
      (st : PythonAdapter.length_scan) (i : Z) (line : string) :
  PythonAdapter.violations st = [] ->
  0 <= PythonAdapter.function_start st ->
  0 <= i <= max_lines ->
  PythonAdapter.violations
    (PythonAdapter.check_line name max_lines st (i, line)) = []
  /\ 0 <= PythonAdapter.function_start
            (PythonAdapter.check_line name max_lines st (i, line)).
Proof.
  intros Hnil Hstart Hi. unfold PythonAdapter.check_line.
  destruct (Py.startswith (Py.strip line) "def "
            || Py.startswith (Py.strip line) "async def ").
  - cbn [PythonAdapter.violations PythonAdapter.function_start].
    split; [| lia].
    apply python_check_function_nil; [assumption | assumption | lia].
  - destruct (PythonAdapter.current_function st) as [f |]; [| auto].
    destruct (Py.truthy (Some f)
              && negb (String.eqb (Py.strip line) EmptyString)
              && (PythonAdapter.indent line
                  <=? PythonAdapter.indent_level st)%Z); [| auto].
    destruct (negb (existsb (Py.startswith (Py.strip line))
                            ["def "; "async def "; "class "; "@"])); [| auto].
    cbn [PythonAdapter.violations PythonAdapter.function_start].
    assert (Hle : (max_lines <? i - PythonAdapter.function_start st)%Z = false)
      by (apply Z.ltb_ge; lia).
    rewrite Hle. auto.
Qed.

Lemma python_scan_short (name : string) (max_lines : Z)
      (lines : list string) :
  forall (i : Z) (st : PythonAdapter.length_scan),
    PythonAdapter.violations st = [] ->
    0 <= PythonAdapter.function_start st ->
    0 <= i ->
    i + Z.of_nat (length lines) <= max_lines ->
    let st' := fold_left (PythonAdapter.check_line name max_lines)
                 (Py.enumerate_from i lines) st in
    PythonAdapter.violations st' = []
    /\ 0 <= PythonAdapter.function_start st'.
Proof.
  induction lines as [| line lines IH]; intros i st Hnil Hstart Hi Hlen.
  - cbn. auto.
  - cbn [Py.enumerate_from fold_left length] in *.
    rewrite Nat2Z.inj_succ in Hlen.
    destruct (python_check_line_short name max_lines st i line)
      as [Hnil' Hstart']; [assumption | assumption | lia |].
    apply IH; [assumption | assumption | lia | lia].
Qed.

(** X17.  A readable file with no more lines than [max_lines] has no
    violation, in the generic adapter and in the Python adapter. *)
Theorem short_file_has_no_violation (path name : string)
        (message : exn -> string) (content : string) (max_lines : Z) :
  Py.count_char "010" content + 1 <= max_lines ->
  BaseAdapter.validate_function_length (Return content) max_lines = []
  /\ PythonAdapter.validate_function_length path name message
       (Return content) max_lines = [].
Proof.
  rewrite <- split_lines_length. intros Hshort.
  unfold BaseAdapter.validate_function_length,
    PythonAdapter.validate_function_length, Py.enumerate.
  split.
  - destruct (base_scan_short max_lines (Py.split_lines content) 0
                {| BaseAdapter.violations := [];
                   BaseAdapter.current_function := None;
                   BaseAdapter.function_start := 0 |})
      as [Hnil Hstart]; cbn; try reflexivity; try lia.
    apply base_check_function_nil; assumption.
  - destruct (python_scan_short name max_lines (Py.split_lines content) 0
                {| PythonAdapter.violations := [];
                   PythonAdapter.current_function := None;
                   PythonAdapter.function_start := 0;
                   PythonAdapter.indent_level := 0 |})
      as [Hnil Hstart]; cbn; try reflexivity; try lia.
    apply python_check_function_nil; assumption.
Qed.

Lemma short_file_has_no_violation_witness :
  BaseAdapter.validate_function_length
    (Return "def f():
  return 1") 30 = []
  /\ PythonAdapter.validate_function_length "/p/m.py" "m.py"
       (fun _ => "unreadable")
       (Return "def f():
  return 1") 30 = [].
Proof.
  apply (short_file_has_no_violation "/p/m.py" "m.py"
           (fun _ => "unreadable")).
  vm_compute. discriminate.
Defined.

Lemma base_check_function_length (max_lines : Z)
      (st : BaseAdapter.length_scan) (i : Z) :
  Z.of_nat (length (BaseAdapter.check_function max_lines st i))
  <= Z.of_nat (length (BaseAdapter.violations st))
     + (match BaseAdapter.current_function st with Some _ => 1 | None => 0 end).
Proof.
  unfold BaseAdapter.check_function.
  destruct (BaseAdapter.current_function st) as [f |]; [| lia].
  destruct (Py.truthy (Some f)
            && (max_lines <? i - BaseAdapter.function_start st)%Z); [| lia].
  rewrite length_app. cbn [length]. lia.
Qed.

Lemma base_scan_length (max_lines : Z) (lines : list string) :
  forall (i : Z) (st : BaseAdapter.length_scan) (n : Z),
    Z.of_nat (length (BaseAdapter.violations st))
    + (match BaseAdapter.current_function st with Some _ => 1 | None => 0 end) <= n ->
    let st' := fold_left (BaseAdapter.check_line max_lines)
                 (Py.enumerate_from i lines) st in
    Z.of_nat (length (BaseAdapter.violations st'))
    + (match BaseAdapter.current_function st' with Some _ => 1 | None => 0 end)
    <= fold_left (fun function_count line =>
         if existsb (fun keyword => Py.contains keyword line)
                    ["def "; "function "; "func "]
         then function_count + 1 else function_count) lines n.
Proof.
  induction lines as [| line lines IH]; intros i st n Hn.
  - exact Hn.
  - cbn [Py.enumerate_from fold_left]. apply IH.
    unfold BaseAdapter.check_line. cbv beta iota. cbn [existsb].
    destruct (Py.contains "def " line); cbn [orb].
    + cbn [BaseAdapter.violations BaseAdapter.current_function].
      pose proof (base_check_function_length max_lines st i). lia.
    + destruct (Py.contains "function " line); cbn [orb].
      * cbn [BaseAdapter.violations BaseAdapter.current_function].
        pose proof (base_check_function_length max_lines st i). lia.
      * destruct (Py.contains "func " line); cbn [orb]; lia.
Qed.

Lemma python_check_function_length (name : string) (max_lines : Z)
      (st : PythonAdapter.length_scan) (i : Z) :
  Z.of_nat (length (PythonAdapter.check_function name max_lines st i))
  <= Z.of_nat (length (PythonAdapter.violations st))
     + (match PythonAdapter.current_function st with Some _ => 1 | None => 0 end).
Proof.
  unfold PythonAdapter.check_function.
  destruct (PythonAdapter.current_function st) as [f |]; [| lia].
  destruct (Py.truthy (Some f)
            && (max_lines <? i - PythonAdapter.function_start st)%Z); [| lia].
  rewrite length_app. cbn [length]. lia.
Qed.

Lemma python_scan_length (name : string) (max_lines : Z)
      (lines : list string) :
  forall (i : Z) (st : PythonAdapter.length_scan) (n : Z),
    Z.of_nat (length (PythonAdapter.violations st))
    + (match PythonAdapter.current_function st with Some _ => 1 | None => 0 end) <= n ->
    let st' := fold_left (PythonAdapter.check_line name max_lines)
                 (Py.enumerate_from i lines) st in
    Z.of_nat (length (PythonAdapter.violations st'))
    + (match PythonAdapter.current_function st' with Some _ => 1 | None => 0 end)
    <= fold_left (fun function_count line =>
         let stripped := Py.strip line in
         if Py.startswith stripped "def "
            || Py.startswith stripped "async def "
         then function_count + 1 else function_count) lines n.
Proof.
  induction lines as [| line lines IH]; intros i st n Hn.
  - exact Hn.
  - cbn [Py.enumerate_from fold_left]. apply IH.
    unfold PythonAdapter.check_line. cbv beta iota zeta.
    destruct (Py.startswith (Py.strip line) "def "
              || Py.startswith (Py.strip line) "async def ").
    + cbn [PythonAdapter.violations PythonAdapter.current_function].
      pose proof (python_check_function_length name max_lines st i). lia.
    + destruct (PythonAdapter.current_function st) as [f |] eqn:Hcur;
        [| rewrite Hcur; exact Hn].
      destruct (Py.truthy (Some f)
                && negb (String.eqb (Py.strip line) EmptyString)
                && (PythonAdapter.indent line
                    <=? PythonAdapter.indent_level st)%Z);
        [| rewrite Hcur; exact Hn].
      destruct (negb (existsb (Py.startswith (Py.strip line))
                              ["def "; "async def "; "class "; "@"]));
        [| rewrite Hcur; exact Hn].
      cbn [PythonAdapter.violations PythonAdapter.current_function].
      destruct (max_lines <? i - PythonAdapter.function_start st)%Z;
        [rewrite length_app; cbn [length] |]; lia.
Qed.

(** X18.  Each function is reported at most once: for a readable file
    the number of violations does not exceed the number of functions
    that [get_function_count] counts in it, in the generic adapter
    and in the Python adapter. *)
Theorem violations_below_function_count (path name : string)
        (message : exn -> string) (content : string) (max_lines : Z) :
  Z.of_nat (length (BaseAdapter.validate_function_length
                      (Return content) max_lines))
  <= BaseAdapter.get_function_count (Return content)
  /\ Z.of_nat (length (PythonAdapter.validate_function_length path name
                         message (Return content) max_lines))
     <= PythonAdapter.get_function_count (Return content).
Proof.
  unfold BaseAdapter.validate_function_length,
    PythonAdapter.validate_function_length,
    BaseAdapter.get_function_count, PythonAdapter.get_function_count,
    Py.enumerate.
  split.
  - pose proof (base_scan_length max_lines (Py.split_lines content) 0
                  {| BaseAdapter.violations := [];
                     BaseAdapter.current_function := None;
                     BaseAdapter.function_start := 0 |} 0 (Z.le_refl 0))
      as Hscan.
    cbv zeta in Hscan.
    etransitivity; [apply base_check_function_length | exact Hscan].
  - pose proof (python_scan_length name max_lines (Py.split_lines content) 0
                  {| PythonAdapter.violations := [];
                     PythonAdapter.current_function := None;
                     PythonAdapter.function_start := 0;
                     PythonAdapter.indent_level := 0 |} 0 (Z.le_refl 0))
      as Hscan.
    cbv zeta in Hscan.
    etransitivity; [apply python_check_function_length | exact Hscan].
Qed.

(** ** The configuration of a project *)

Lemma lookup_template_names (project_type : string) (t : Init.template) :
  Init.lookup_template project_type Init.PROJECT_TEMPLATES = Some t ->
  In (project_type, t) Init.PROJECT_TEMPLATES.
Proof.
  generalize Init.PROJECT_TEMPLATES as ts.
  induction ts as [| [n t'] ts IH]; cbn [Init.lookup_template]; intros H.
  - discriminate H.
  - destruct (String.eqb_spec n project_type) as [-> | Hn].
    + injection H as ->. left. reflexivity.
    + right. apply IH. exact H.
Qed.

(** X19.  For a project type of the catalogue the configuration is
    created: it keeps the language, the tools and the metrics of the
    template, its [project_type] is the name of the template (not the
    project type the template itself declares), and its [project_name]
    is the custom name unless that is absent or empty, when it is the
    name of the project directory. *)
Theorem created_config_fields (path_name project_type : string)
        (custom_name : option string) (t : Init.template) :
  Init.lookup_template project_type Init.PROJECT_TEMPLATES = Some t ->
  exists template_config config,
    Init.lookup_config project_type Init.CONFIGS = Some template_config
    /\ Init.create_orchestrator_config path_name project_type custom_name
       = inr config
    /\ PyVal.dict_get config "language" PyVal.PNone
       = PyVal.PStr (Init.config_language t)
    /\ PyVal.dict_get template_config "project_type" PyVal.PNone
       = PyVal.PStr (Init.config_project_type t)
    /\ PyVal.dict_get config "project_type" PyVal.PNone
       = PyVal.PStr project_type
    /\ PyVal.dict_get config "tools" PyVal.PNone
       = PyVal.dict_get template_config "tools" PyVal.PNone
    /\ PyVal.dict_get config "metrics" PyVal.PNone
       = PyVal.dict_get template_config "metrics" PyVal.PNone
    /\ PyVal.dict_get config "project_name" PyVal.PNone
       = PyVal.PStr (match custom_name with
                     | Some name => if String.eqb name "" then path_name
                                    else name
                     | None => path_name
                     end).
Proof.
  intros Hlookup. apply lookup_template_names in Hlookup.
  assert (Hname : forall name,
    (match custom_name with
     | Some name => if Py.truthy (Some name) then name else path_name
     | None => path_name
     end) = name ->
    (match custom_name with
     | Some name => if String.eqb name "" then path_name else name
     | None => path_name
     end) = name).
  { intros name <-. destruct custom_name as [name' |]; [| reflexivity].
    cbn [Py.truthy]. destruct (String.eqb name' ""); reflexivity. }
  cbn [Init.PROJECT_TEMPLATES In] in Hlookup.
  repeat (destruct Hlookup as [Heq | Hlookup];
    [injection Heq as <- <-;
     eexists; eexists; split; [reflexivity |];
     split; [reflexivity |];
     repeat (split; [reflexivity |]);
     cbn [Init.dict_update fold_left Init.dict_set String.eqb Ascii.eqb
          Bool.eqb fst snd PyVal.dict_get];
     f_equal; symmetry; apply Hname; reflexivity |]).
  destruct Hlookup.
Qed.

Lemma created_config_fields_witness :
  exists template_config config,
    Init.lookup_config "python_ml" Init.CONFIGS = Some template_config
    /\ Init.create_orchestrator_config "demo" "python_ml" (Some "")
       = inr config
    /\ PyVal.dict_get config "language" PyVal.PNone = PyVal.PStr "python"
    /\ PyVal.dict_get template_config "project_type" PyVal.PNone
       = PyVal.PStr "ml"
    /\ PyVal.dict_get config "project_type" PyVal.PNone
       = PyVal.PStr "python_ml"
    /\ PyVal.dict_get config "tools" PyVal.PNone
       = PyVal.dict_get template_config "tools" PyVal.PNone
    /\ PyVal.dict_get config "metrics" PyVal.PNone
       = PyVal.dict_get template_config "metrics" PyVal.PNone
    /\ PyVal.dict_get config "project_name" PyVal.PNone = PyVal.PStr "demo".
Proof.
  destruct (Init.lookup_template "python_ml" Init.PROJECT_TEMPLATES)
    as [t |] eqn:Hlookup; [| discriminate Hlookup].
  pose proof (created_config_fields "demo" "python_ml" (Some "") t Hlookup)
    as Hfields.
  injection Hlookup as <-. exact Hfields.
Defined.

(** X20.  The type that the classifier detects always has a
    configuration: creating the configuration for it never raises
    [KeyError], the [project_type] of the configuration is the
    detected type, and its language is one of the names the adapter
    registry holds. *)
Theorem detected_type_has_config (path_name project_path : string)
        (tree : Init.node) (custom_name : option string) :
  exists config language,
    Init.create_orchestrator_config path_name
      (Init.detect_project_type project_path tree) custom_name
    = inr config
    /\ PyVal.dict_get config "project_type" PyVal.PNone
       = PyVal.PStr (Init.detect_project_type project_path tree)
    /\ PyVal.dict_get config "language" PyVal.PNone = PyVal.PStr language
    /\ is_Some (Registry.ADAPTERS !! language).
Proof.
  pose proof (detect_project_type_in_catalogue project_path tree) as Hin.
  revert Hin.
  generalize (Init.detect_project_type project_path tree) as name.
  intros name Hin.
  change (map fst Init.PROJECT_TEMPLATES)
    with ["python_ml"; "python_api"; "typescript_node"; "react_frontend";
          "go_service"; "rust_project"] in Hin.
  repeat (destruct Hin as [Hname | Hin];
    [subst name; eexists; eexists;
     split; [reflexivity |];
     split; [reflexivity |];
     split; [reflexivity |];
     eexists; vm_compute; reflexivity |]).
  destruct Hin.
Qed.

(** ** The Python test parser: coverage *)

Lemma split_lines_nonempty (s : string) : Py.split_lines s <> [].
Proof.
  destruct s as [| c s]; cbn [Py.split_lines]; [discriminate |].
  destruct (Py.is_newline c); [discriminate |].
  destruct (Py.split_lines s); discriminate.
Qed.

Lemma first_line_prefix (s l : string) (ls : list string) :
  Py.split_lines s = l :: ls -> exists rest, s = l +:+ rest.
Proof.
  revert l ls. induction s as [| c s IH]; intros l ls Hsplit.
  - injection Hsplit as <- _. exists "". reflexivity.
  - cbn [Py.split_lines] in Hsplit. destruct (Py.is_newline c).
    + injection Hsplit as <- _. exists (String c s). reflexivity.
    + destruct (Py.split_lines s) as [| l' ls'] eqn:Hs.
      * injection Hsplit as <- _. exists s. reflexivity.
      * injection Hsplit as <- _.
        destruct (IH l' ls' eq_refl) as [rest Hrest].
        exists rest. rewrite Hrest at 1. reflexivity.
Qed.

(** What occurs in a line of the output occurs in the output. *)
Lemma contains_line (sub s line : string) :
  In line (Py.split_lines s) ->
  Py.contains sub line = true ->
  Py.contains sub s = true.
Proof.
  revert line. induction s as [| c s IH]; intros line Hin Hsub.
  - destruct Hin as [<- | []]. exact Hsub.
  - cbn [Py.split_lines] in Hin. destruct (Py.is_newline c).
    + destruct Hin as [<- | Hin].
      * cbn [Py.contains] in Hsub. rewrite orb_false_r in Hsub.
        apply prefix_contains.
        apply (prefix_app sub "" (String c s) Hsub).
      * apply contains_cons. apply (IH line Hin Hsub).
    + destruct (Py.split_lines s) as [| l ls] eqn:Hs.
      * exfalso. apply (split_lines_nonempty s Hs).
      * destruct Hin as [<- | Hin].
        -- destruct (first_line_prefix s l ls Hs) as [rest Hrest].
           rewrite Hrest.
           change (String c (l +:+ rest)) with (String c l +:+ rest).
           apply contains_app. exact Hsub.
        -- apply contains_cons. apply (IH line (or_intror Hin) Hsub).
Qed.

Lemma scan_coverage_none (lines : list string) (t : PythonAdapter.tally) :
  (forall line, In line lines ->
     Py.contains "TOTAL" line && Py.contains "%" line = false) ->
  PythonAdapter.t_coverage (fold_left PythonAdapter.scan_line lines t)
  = PythonAdapter.t_coverage t.
Proof.
  revert t. induction lines as [| line lines IH]; intros t Hlines.
  - reflexivity.
  - cbn [fold_left]. rewrite IH by (intros l Hl; apply Hlines; right; exact Hl).
    unfold PythonAdapter.scan_line.
    rewrite (Hlines line (or_introl eq_refl)).
    destruct (PythonAdapter.marked "PASSED" line);
      [| destruct (PythonAdapter.marked "FAILED" line);
         [| destruct (PythonAdapter.marked "SKIPPED" line)]];
      reflexivity.
Qed.

(** X21.  The Python test parser reports a coverage only when the
    output has the word [TOTAL] and the sign [%]: without one of them
    the coverage of the result is [None]. *)
Theorem coverage_needs_total_line (output : string) :
  Py.contains "TOTAL" output && Py.contains "%" output = false ->
  PythonAdapter.coverage (PythonAdapter.parse_test_output output) = None.
Proof.
  intros Hnone.
  assert (Hcov :
    PythonAdapter.coverage (PythonAdapter.parse_test_output output)
    = PythonAdapter.t_coverage (PythonAdapter.scan (Py.split_lines output))).
  { unfold PythonAdapter.parse_test_output.
    destruct (Re.search PythonAdapter.summary_pattern output); reflexivity. }
  rewrite Hcov. unfold PythonAdapter.scan.
  rewrite scan_coverage_none; [reflexivity |].
  intros line Hline. apply andb_false_iff.
  apply andb_false_iff in Hnone as [Hnone | Hnone]; [left | right];
    (destruct (Py.contains _ line) eqn:Hsub; [| reflexivity]);
    rewrite (contains_line _ output line Hline Hsub) in Hnone;
    discriminate Hnone.
Qed.

Lemma coverage_needs_total_line_witness :
  PythonAdapter.coverage
    (PythonAdapter.parse_test_output "coverage: 85% of statements") = None.
Proof. apply coverage_needs_total_line. reflexivity. Defined.
